(** * PearlConnect back end: the availability and booking core

    A shallow embedding of the slot generator of
    [src/controllers/availability.js], of its re-implementation
    [getAvailableSlotsInternal] inside the booking router
    ([src/unnamed/part_013]), of the booking creation handler and of the
    Mongoose schemas they read and write ([src/models/availability.js],
    [src/models/booking.js]).

    Modelling conventions.
    - Strings are [String.string] over [ascii]; JavaScript strings handled
      here are time strings, so the ASCII part of the regular expressions is
      what matters ([\s] is the six ASCII blanks).
    - The server's local zone is taken to be free of daylight-saving
      changes, so a JS [Date] is modelled by its millisecond timestamp and
      [getHours]/[getMinutes]/[getDay]/[toISOString] become arithmetic on
      it (local time = UTC).
    - Inside the slot generators a time of day is a number of minutes since
      local midnight of the requested date: [d.setHours(h, m, 0, 0)] is
      [60 * h + m], and adding [k * 60000] ms adds [k] minutes.
    - A thrown JS exception (e.g. reading [.hours] of [null]) is [None]. *)

From Stdlib Require Import ZArith String Ascii List Bool Lia.
From Stdlib Require Import Numbers.DecimalString Sorting.Sorted.
Import ListNotations.
Open Scope Z_scope.

(* ------------------------------------------------------------------ *)
(** ** Characters and strings *)

Module Chars.

Definition code (c : ascii) : Z := Z.of_nat (nat_of_ascii c).

(** [\d] in a JS regular expression. *)
Definition is_digit (c : ascii) : bool := (48 <=? code c) && (code c <=? 57).

(** [\s] restricted to ASCII: tab, LF, VT, FF, CR and space. *)
Definition is_space (c : ascii) : bool :=
  ((9 <=? code c) && (code c <=? 13)) || (code c =? 32).

(** [String.prototype.toUpperCase] on one ASCII character. *)
Definition upper (c : ascii) : ascii :=
  if (97 <=? code c) && (code c <=? 122)
  then ascii_of_nat (Z.to_nat (code c - 32)) else c.

Fixpoint map_upper (s : string) : string :=
  match s with
  | EmptyString => EmptyString
  | String c r => String (upper c) (map_upper r)
  end.

Fixpoint all_digits (s : string) : bool :=
  match s with
  | EmptyString => true
  | String c r => is_digit c && all_digits r
  end.

(** [parseInt] on a non-empty string of decimal digits. *)
Fixpoint parse_int_acc (acc : Z) (s : string) : Z :=
  match s with
  | EmptyString => acc
  | String c r => parse_int_acc (10 * acc + (code c - 48)) r
  end.

Definition parseInt (s : string) : Z := parse_int_acc 0 s.

(** [Number.prototype.toString] on a non-negative integer. *)
Definition toString (x : Z) : string := NilEmpty.string_of_int (Z.to_int x).

(** [s.padStart(2, '0')]. *)
Definition padStart2 (s : string) : string :=
  match s with
  | EmptyString => "00"
  | String _ EmptyString => String "0" s
  | _ => s
  end.

End Chars.
Import Chars.

(* ------------------------------------------------------------------ *)
(** ** [parseTimeString] and [formatTimeString] *)

Module Time.

(** Splits at the first [':'], as the literal [:] after [(\d{1,2})] does
    when the hour group is made of digits only. *)
Fixpoint split_colon (s : string) : option (string * string) :=
  match s with
  | EmptyString => None
  | String c r =>
      if Ascii.eqb c ":" then Some (EmptyString, r)
      else match split_colon r with
           | Some (h, t) => Some (String c h, t)
           | None => None
           end
  end.

(** The [(AM|PM)] group under the [i] flag. *)
Definition is_period (a m : ascii) : bool :=
  (Ascii.eqb (upper a) "A" || Ascii.eqb (upper a) "P") && Ascii.eqb (upper m) "M".

(** [timeStr.match(/^(\d{1,2}):(\d{2})\s?(AM|PM)$/i)], returning the three
    capture groups. *)
Definition match_time (s : string) : option (string * string * string) :=
  match split_colon s with
  | Some (hs, String m1 (String m2 r)) =>
      if ((String.length hs =? 1)%nat || (String.length hs =? 2)%nat)
         && all_digits hs && is_digit m1 && is_digit m2 then
        match r with
        | String a (String m EmptyString) =>
            if is_period a m then Some (hs, String m1 (String m2 EmptyString), String a (String m EmptyString)) else None
        | String w (String a (String m EmptyString)) =>
            if is_space w && is_period a m
            then Some (hs, String m1 (String m2 EmptyString), String a (String m EmptyString)) else None
        | _ => None
        end
      else None
  | _ => None
  end.

(** [parseTimeString] (availability.js 343-355); [parseTimeStringInternal]
    in the booking router is the same text. [None] is [null]. *)
Definition parseTimeString (timeStr : string) : option (Z * Z) :=
  match match_time timeStr with
  | None => None
  | Some (g1, g2, g3) =>
      let hours := parseInt g1 in
      let minutes := parseInt g2 in
      let period := map_upper g3 in
      let hours := if String.eqb period "PM" && negb (hours =? 12) then hours + 12 else hours in
      let hours := if String.eqb period "AM" && (hours =? 12) then 0 else hours in
      Some (hours, minutes)
  end.

(** [getHours] and [getMinutes] of a time [t] minutes after local midnight. *)
Definition getHours (t : Z) : Z := (t / 60) mod 24.
Definition getMinutes (t : Z) : Z := t mod 60.

(** [formatTimeString] (availability.js 358-365); identical to
    [formatTimeStringInternal]. *)
Definition formatTimeString (t : Z) : string :=
  let hours := getHours t in
  let minutes := padStart2 (toString (getMinutes t)) in
  let period := if hours >=? 12 then "PM"%string else "AM"%string in
  let displayHours := if hours =? 0 then 12 else if hours >? 12 then hours - 12 else hours in
  (toString displayHours ++ ":" ++ minutes ++ " " ++ period)%string.

(** [d.setHours(p.hours, p.minutes, 0, 0)] for a parsed time [p]. *)
Definition at_time (p : Z * Z) : Z := 60 * fst p + snd p.

End Time.
Import Time.

(** The 12-hour grammar of the spec, [(0?[1-9]|1[0-2]):[0-5]\d\s?(AM|PM)],
    case-insensitive and matched against the whole string. *)
Definition in_range (lo hi : Z) (c : ascii) : bool := (lo <=? code c) && (code c <=? hi).

Definition hour12 (hs : string) : bool :=
  match hs with
  | String c EmptyString => in_range 49 57 c
  | String c1 (String c2 EmptyString) =>
      (Ascii.eqb c1 "0" && in_range 49 57 c2) || (Ascii.eqb c1 "1" && in_range 48 50 c2)
  | _ => false
  end.

Definition period_tail (r : string) : bool :=
  match r with
  | String a (String m EmptyString) => is_period a m
  | String w (String a (String m EmptyString)) => is_space w && is_period a m
  | _ => false
  end.

Definition valid12 (s : string) : bool :=
  match split_colon s with
  | Some (hs, String m1 (String m2 r)) =>
      hour12 hs && in_range 48 53 m1 && is_digit m2 && period_tail r
  | _ => false
  end.

(** The period letters at the end of the tail [\s?(AM|PM)]. *)
Definition period_of (r : string) : string :=
  match r with
  | String _ (String _ EmptyString) => r
  | String _ r' => r'
  | EmptyString => r
  end.

(** Drops a leading zero of the hour. *)
Definition strip0 (hs : string) : string :=
  match hs with
  | String c r => if Ascii.eqb c "0" then r else hs
  | EmptyString => hs
  end.

(** The normal form the claim compares with: hour without leading zero,
    the two minute digits, exactly one space, upper-case period. *)
Definition normalize (s : string) : string :=
  match split_colon s with
  | Some (hs, String m1 (String m2 r)) =>
      (strip0 hs ++ ":" ++ String m1 (String m2 EmptyString) ++ " " ++ map_upper (period_of r))%string
  | _ => s
  end.

(* ------------------------------------------------------------------ *)
(** ** The availability schema ([src/models/availability.js]) *)

Module Model.

Record BreakTime := mkBreak {
  br_startTime : string;
  br_endTime : string
}.

(** [ScheduleSchema]: one weekly rule. *)
Record Schedule := mkSchedule {
  dayOfWeek : Z;
  isEnabled : bool;
  startTime : string;
  endTime : string;
  slotDuration : Z;
  bufferTime : Z;
  breakTimes : list BreakTime
}.

(** [ExceptionSchema]; [date] is a JS [Date] (milliseconds). *)
Record DateException := mkException {
  ex_date : Z;
  isAvailable : bool;
  customStartTime : option string;
  customEndTime : option string;
  reason : option string
}.

(** [availabilitySchema]. *)
Record Availability := mkAvailability {
  av_providerId : string;
  schedules : list Schedule;
  exceptions : list DateException;
  timezone : string;
  advanceBookingDays : Z
}.

(** A generated slot: [{ startTime, endTime, available }]. *)
Record Slot := mkSlot {
  sl_startTime : string;
  sl_endTime : string;
  available : bool
}.

(** JS truthiness of an optional string field. *)
Definition truthy (o : option string) : bool :=
  match o with Some v => negb (String.eqb v "") | None => false end.

(** [Date] arithmetic (local time = UTC, see the header). *)
Definition ms_per_day : Z := 86400000.
Definition day_number (ms : Z) : Z := ms / ms_per_day.
(** [date.getDay()]: 1 January 1970 was a Thursday. *)
Definition getDay (ms : Z) : Z := (day_number ms + 4) mod 7.
(** [d.toISOString().split('T')[0]] identifies the calendar day. *)
Definition iso_day (ms : Z) : Z := day_number ms.

End Model.
Import Model.

(* ------------------------------------------------------------------ *)
(** ** [generateTimeSlots] (availability.js 298-340) *)

Module Gen.

(** [Array.prototype.some] with a callback that may throw ([None]). *)
Fixpoint some_opt {A} (f : A -> option bool) (l : list A) : option bool :=
  match l with
  | [] => Some false
  | x :: r =>
      match f x with
      | None => None
      | Some true => Some true
      | Some false => some_opt f r
      end
  end.

(** The [isDuringBreak] callback for the slot [[cur, slotEnd)]. Reading
    [.hours] of a [null] parse throws; [&&] and [||] short-circuit. *)
Definition during_break (cur slotEnd : Z) (b : BreakTime) : option bool :=
  let breakStart := parseTimeString (br_startTime b) in
  let breakEnd := parseTimeString (br_endTime b) in
  let slotStartHour := getHours cur in
  let slotEndHour := getHours slotEnd in
  match breakStart with
  | None => None
  | Some (bsh, bsm) =>
      if (slotStartHour >=? bsh) || ((slotStartHour =? bsh) && (getMinutes cur >=? bsm)) then
        match breakEnd with
        | None => None
        | Some (beh, bem) =>
            Some ((slotEndHour <=? beh) || ((slotEndHour =? beh) && (getMinutes slotEnd <=? bem)))
        end
      else Some false
  end.

(** Outcome of running JS code: a value, a thrown exception, or a loop
    that never terminates. *)
Inductive Exec (A : Type) := Ok (a : A) | Thrown | Hangs.
Arguments Ok {A} a.
Arguments Thrown {A}.
Arguments Hangs {A}.

(** The [while (currentTime < endDateTime)] loop. [fuel] bounds the number
    of iterations; running out of it means the loop does not terminate
    (a non-positive step). *)
Fixpoint gen_loop (fuel : nat) (endDateTime slotDuration bufferTime : Z)
    (breakTimes : list BreakTime) (currentTime : Z) : Exec (list Slot) :=
  match fuel with
  | O => Hangs
  | S fuel' =>
      if currentTime <? endDateTime then
        let slotEndTime := currentTime + slotDuration in
        match some_opt (during_break currentTime slotEndTime) breakTimes with
        | None => Thrown
        | Some isDuringBreak =>
            match gen_loop fuel' endDateTime slotDuration bufferTime breakTimes
                    (slotEndTime + bufferTime) with
            | Ok rest =>
                if negb isDuringBreak && (slotEndTime <=? endDateTime)
                then Ok (mkSlot (formatTimeString currentTime) (formatTimeString slotEndTime) true :: rest)
                else Ok rest
            | e => e
            end
        end
      else Ok []
  end.

Definition loop_fuel (start endDateTime : Z) : nat := S (Z.to_nat (endDateTime - start)).

Definition generateTimeSlots (startTime endTime : string) (slotDuration bufferTime : Z)
    (breakTimes : list BreakTime) : Exec (list Slot) :=
  match parseTimeString startTime, parseTimeString endTime with
  | Some st, Some en =>
      gen_loop (loop_fuel (at_time st) (at_time en)) (at_time en) slotDuration bufferTime
        breakTimes (at_time st)
  | _, _ => Thrown
  end.

End Gen.

(* ------------------------------------------------------------------ *)
(** ** The shared store *)

Module Store.

(** A user ([src/unnamed/part_003]): id and role. *)
Record User := mkUser { u_id : string; role : string }.

(** A service ([src/unnamed/part_002]): id and owning provider. *)
Record Service := mkService { sv_id : string; sv_provider : string }.

(** A MongoDB document: field names and values. *)
Inductive Val := VStr (v : string) | VDate (ms : Z).

Definition val_eqb (x y : Val) : bool :=
  match x, y with
  | VStr a, VStr b => String.eqb a b
  | VDate a, VDate b => a =? b
  | _, _ => false
  end.

Definition Doc := list (string * Val).

Definition get (k : string) (d : Doc) : option Val :=
  match find (fun kv => String.eqb (fst kv) k) d with
  | Some kv => Some (snd kv)
  | None => None
  end.

Record World := mkWorld {
  users : list User;
  services : list Service;
  availabilities : list Availability;
  bookings : list Doc
}.

Definition findUser (w : World) (id : string) : option User :=
  find (fun u => String.eqb (u_id u) id) (users w).

Definition findAvailability (w : World) (providerId : string) : option Availability :=
  find (fun a => String.eqb (av_providerId a) providerId) (availabilities w).

End Store.
Import Store.

(* ------------------------------------------------------------------ *)
(** ** [getAvailableSlotsInternal] (part_013 192-235) *)

Module Internal.

Definition option_bind {A B} (o : option A) (f : A -> option B) : option B :=
  match o with Some a => f a | None => None end.

(** [a || b] on an optional string and a string. *)
Definition or_str (o : option string) (d : string) : string :=
  match o with
  | Some v => if String.eqb v "" then d else v
  | None => d
  end.

(** The [isDuringBreak] callback of the internal generator. *)
Definition during_break (slotDuration cur : Z) (b : BreakTime) : option bool :=
  let breakStart := parseTimeString (br_startTime b) in
  let breakEnd := parseTimeString (br_endTime b) in
  let slotStartHour := getHours cur in
  let slotEndHour := getHours cur + slotDuration / 60 in
  match breakStart with
  | None => None
  | Some (bsh, _) =>
      if slotStartHour >=? bsh then
        match breakEnd with
        | None => None
        | Some (beh, _) => Some (slotEndHour <=? beh)
        end
      else Some false
  end.

(** Its loop: no end-of-window test on emission, cursor advanced by
    [slotDuration + bufferTime]. *)
Fixpoint loop (fuel : nat) (endDateTime slotDuration bufferTime : Z)
    (breakTimes : list BreakTime) (currentTime : Z) : Gen.Exec (list Slot) :=
  match fuel with
  | O => Gen.Hangs
  | S fuel' =>
      if currentTime <? endDateTime then
        match Gen.some_opt (during_break slotDuration currentTime) breakTimes with
        | None => Gen.Thrown
        | Some isDuringBreak =>
            match loop fuel' endDateTime slotDuration bufferTime breakTimes
                    (currentTime + (slotDuration + bufferTime)) with
            | Gen.Ok rest =>
                if negb isDuringBreak
                then Gen.Ok (mkSlot (formatTimeString currentTime)
                               (formatTimeString (currentTime + slotDuration)) true :: rest)
                else Gen.Ok rest
            | e => e
            end
        end
      else Gen.Ok []
  end.

(** The whole helper; its [try/catch] turns a thrown error into [[]]. *)
Definition getAvailableSlotsInternal (w : World) (providerId : string) (requestedDate : Z)
    : Gen.Exec (list Slot) :=
  match findAvailability w providerId with
  | None => Gen.Ok []
  | Some availability =>
      let dow := getDay requestedDate in
      match find (fun s => (dayOfWeek s =? dow) && isEnabled s) (schedules availability) with
      | None => Gen.Ok []
      | Some schedule =>
          let exception := find (fun e => iso_day (ex_date e) =? iso_day requestedDate)
                                (exceptions availability) in
          let blocked := match exception with Some e => negb (isAvailable e) | None => false end in
          if blocked then Gen.Ok [] else
          let startTime := or_str (option_bind exception customStartTime) (startTime schedule) in
          let endTime := or_str (option_bind exception customEndTime) (endTime schedule) in
          match parseTimeString startTime, parseTimeString endTime with
          | Some st, Some en =>
              match loop (Gen.loop_fuel (at_time st) (at_time en)) (at_time en)
                      (slotDuration schedule) (bufferTime schedule) (breakTimes schedule)
                      (at_time st) with
              | Gen.Thrown => Gen.Ok []
              | r => r
              end
          | _, _ => Gen.Ok []
          end
      end
  end.

End Internal.

(* ------------------------------------------------------------------ *)
(** ** [GET /availability/provider/:providerId/slots] (availability.js 210-295) *)

Module Slots.


Inductive SlotsResponse :=
  | Status (code : Z)                               (* res.status(code).json({ err }) *)
  | Message (slots : list Slot) (message : string)   (* res.json({ slots, message }) *)
  | Slots (slots : list Slot) (startTime endTime : string)
          (slotDuration bufferTime : Z) (timezone : string)
  | NoResponse.                                      (* the handler never returns *)

(** Lines 271-290: generate the slots of the effective window and reply. *)
Definition respond (availability : Availability) (schedule : Schedule)
    (startTime endTime : string) : SlotsResponse :=
  match Gen.generateTimeSlots startTime endTime (slotDuration schedule)
          (bufferTime schedule) (breakTimes schedule) with
  | Gen.Ok timeSlots =>
      Slots timeSlots startTime endTime (slotDuration schedule)
            (bufferTime schedule) (timezone availability)
  | Gen.Thrown => Status 500
  | Gen.Hangs => NoResponse
  end.

(** [requestedDate] is [new Date(date)] of the query string: [None] is an
    Invalid Date. *)
Definition getSlots (w : World) (user : User) (providerId : string)
    (requestedDate : option Z) : SlotsResponse :=
  match findUser w providerId with
  | None => Status 404
  | Some _ =>
      let isProviderViewingOwn := String.eqb (u_id user) providerId in
      let isAdmin := String.eqb (role user) "admin" in
      let isCustomer := String.eqb (role user) "customer" in
      if negb isProviderViewingOwn && negb isAdmin && negb isCustomer then Status 403 else
      match requestedDate with
      | None => Status 400
      | Some rd =>
          match findAvailability w providerId with
          | None => Status 404
          | Some availability =>
              let dow := getDay rd in
              match find (fun s => (dayOfWeek s =? dow) && isEnabled s) (schedules availability) with
              | None => Message [] "No available slots for this day"
              | Some schedule =>
                  let exception := find (fun e => iso_day (ex_date e) =? iso_day rd)
                                        (exceptions availability) in
                  match exception with
                  | Some e =>
                      if negb (isAvailable e)
                      then Message [] (Internal.or_str (reason e) "Unavailable due to exception")
                      else respond availability schedule
                             (Internal.or_str (customStartTime e) (startTime schedule))
                             (Internal.or_str (customEndTime e) (endTime schedule))
                  | None => respond availability schedule (startTime schedule) (endTime schedule)
                  end
              end
          end
      end
  end.

End Slots.

(* ------------------------------------------------------------------ *)
(** ** Persisting bookings through Mongoose ([src/models/booking.js]) *)

Module Mongo.

(** The paths of [bookingSchema] (with the [_id] and [timestamps] paths).
    There is no [timeSlot] path. *)
Definition booking_paths : list string :=
  ["_id"; "serviceId"; "customerId"; "providerId"; "date"; "status"; "messages";
   "createdAt"; "updatedAt"]%string.

Definition in_paths (k : string) : bool := existsb (String.eqb k) booking_paths.

(** [Booking.create(obj)] under the default [strict: true]: fields that are
    not schema paths are dropped before the document is written. *)
Definition cast_doc (obj : Doc) : Doc := filter (fun kv => in_paths (fst kv)) obj.

(** A query condition: [{ k: v }] or [{ k: { $in: vs } }]. *)
Inductive Cond := CEq (k : string) (v : Val) | CIn (k : string) (vs : list Val).

Definition cond_key (c : Cond) : string := match c with CEq k _ | CIn k _ => k end.

(** MongoDB's matching: a missing field equals no value. *)
Definition cond_matches (d : Doc) (c : Cond) : bool :=
  match c with
  | CEq k v => match get k d with Some x => val_eqb x v | None => false end
  | CIn k vs => match get k d with Some x => existsb (val_eqb x) vs | None => false end
  end.

(** Casting of a filter: with [strictQuery] on (Mongoose 6's default)
    conditions on non-schema paths are removed; with it off (the default of
    Mongoose 5, 7 and 8) they are sent to MongoDB as written. *)
Definition cast_filter (strictQuery : bool) (f : list Cond) : list Cond :=
  if strictQuery then filter (fun c => in_paths (cond_key c)) f else f.

(** [Model.findOne(filter)]. *)
Definition findOne (strictQuery : bool) (f : list Cond) (docs : list Doc) : option Doc :=
  find (fun d => forallb (cond_matches d) (cast_filter strictQuery f)) docs.

End Mongo.

(* ------------------------------------------------------------------ *)
(** ** [POST /bookings] (part_013 34-152) *)

Module Booking.

(** A JS [Date] built from the request's [date]. *)
Inductive JSDate := Valid (ms : Z) | InvalidDate.

(** [req.body]; [None] is a missing (or falsy) field. *)
Record BookingReq := mkReq {
  rq_serviceId : option string;
  rq_customerId : option string;
  rq_providerId : option string;
  rq_date : option JSDate;
  rq_timeSlot : option string
}.

Inductive BookingResponse :=
  | BStatus (code : Z)       (* res.status(code).json({ err }) *)
  | Created (booking : Doc)  (* res.status(201).json({ booking }) *)
  | BNoResponse.             (* the handler never returns *)

(** The handler up to [Booking.create]: either it has answered, or it goes
    on to create the given document. *)
Inductive Check := Stop (r : BookingResponse) | Proceed (obj : Doc).

Section Handler.

Variable strictQuery : bool.

Definition active_statuses : list Val := [VStr "pending"; VStr "confirmed"].

(** Lines 36-128. [now] is [new Date()] in milliseconds. *)
Definition check (w : World) (user : User) (now : Z) (req : BookingReq) : Check :=
  let customerId_matches :=
    match rq_customerId req with Some c => String.eqb (u_id user) c | None => false end in
  if negb customerId_matches && negb (String.eqb (role user) "admin") then Stop (BStatus 403) else
  match rq_serviceId req, rq_customerId req, rq_providerId req, rq_date req, rq_timeSlot req with
  | Some serviceId, Some customerId, Some providerId, Some bookingDate, Some timeSlot =>
      match find (fun sv => String.eqb (sv_id sv) serviceId) (services w) with
      | None => Stop (BStatus 400)
      | Some service =>
          if negb (String.eqb (sv_provider service) providerId) then Stop (BStatus 400) else
          (* [bookingDate <= now] is false for an Invalid Date (NaN) *)
          let in_past := match bookingDate with Valid ms => ms <=? now | InvalidDate => false end in
          if in_past then Stop (BStatus 400) else
          if negb (valid12 timeSlot) then Stop (BStatus 400) else
          match findAvailability w providerId with
          | None => Stop (BStatus 400)
          | Some _ =>
              match bookingDate with
              | InvalidDate => Stop (BStatus 500)   (* toISOString throws *)
              | Valid ms =>
                  match Internal.getAvailableSlotsInternal w providerId ms with
                  | Gen.Hangs => Stop BNoResponse
                  | Gen.Thrown => Stop (BStatus 500)
                  | Gen.Ok availableSlots =>
                      let requestedSlotExists :=
                        existsb (fun sl => String.eqb (sl_startTime sl) timeSlot && available sl)
                                availableSlots in
                      if negb requestedSlotExists then Stop (BStatus 400) else
                      let filter := [Mongo.CEq "providerId" (VStr providerId);
                                     Mongo.CEq "date" (VDate ms);
                                     Mongo.CEq "timeSlot" (VStr timeSlot);
                                     Mongo.CIn "status" active_statuses] in
                      match Mongo.findOne strictQuery filter (bookings w) with
                      | Some _ => Stop (BStatus 409)
                      | None =>
                          Proceed [("serviceId"%string, VStr serviceId);
                                   ("customerId"%string, VStr customerId);
                                   ("providerId"%string, VStr providerId);
                                   ("date"%string, VDate ms);
                                   ("timeSlot"%string, VStr timeSlot);
                                   ("status"%string, VStr "pending")]
                      end
                  end
              end
          end
      end
  | _, _, _, _, _ => Stop (BStatus 400)
  end.

(** Lines 134-146: [Booking.create] stores the cast document. *)
Definition insert (w : World) (obj : Doc) : World * Doc :=
  let stored := Mongo.cast_doc obj in
  (mkWorld (users w) (services w) (availabilities w) (bookings w ++ [stored]), stored).

(** The whole handler run without interruption. *)
Definition createBooking (w : World) (user : User) (now : Z) (req : BookingReq)
    : World * BookingResponse :=
  match check w user now req with
  | Stop r => (w, r)
  | Proceed obj => let (w', stored) := insert w obj in (w', Created stored)
  end.

(** Two handlers running concurrently: each one checks (all its reads up
    to the conflict query) and then inserts, and the event loop may
    interleave the two. *)
Inductive Phase := Start | Ready (obj : Doc) | Done (r : BookingResponse).

Definition step (w : World) (user : User) (now : Z) (req : BookingReq) (p : Phase)
    : World * Phase :=
  match p with
  | Start =>
      match check w user now req with
      | Stop r => (w, Done r)
      | Proceed obj => (w, Ready obj)
      end
  | Ready obj => let (w', stored) := insert w obj in (w', Done (Created stored))
  | Done r => (w, Done r)
  end.

(** A schedule lists which request moves next ([true]: the first). *)
Fixpoint run (sched : list bool) (w : World)
    (u1 : User) (n1 : Z) (r1 : BookingReq) (p1 : Phase)
    (u2 : User) (n2 : Z) (r2 : BookingReq) (p2 : Phase) : World * Phase * Phase :=
  match sched with
  | [] => (w, p1, p2)
  | true :: rest =>
      let (w', p1') := step w u1 n1 r1 p1 in run rest w' u1 n1 r1 p1' u2 n2 r2 p2
  | false :: rest =>
      let (w', p2') := step w u2 n2 r2 p2 in run rest w' u1 n1 r1 p1 u2 n2 r2 p2'
  end.

End Handler.

End Booking.

(* ------------------------------------------------------------------ *)
(** ** [POST] and [PATCH /availability/provider/:providerId]
       (availability.js 55-175) *)

Module Schedule.

(** One element of [req.body.schedules]; [None] is [undefined]/[null].
    A break carries its optional [reason]. *)
Record RuleIn := mkRuleIn {
  ri_dayOfWeek : option Z;
  ri_isEnabled : option bool;
  ri_startTime : option string;
  ri_endTime : option string;
  ri_slotDuration : option Z;
  ri_bufferTime : option Z;
  ri_breakTimes : list (BreakTime * option string)
}.

Definition break_reasons : list string :=
  ["Lunch"; "Meeting"; "Travel"; "Personal"; "Maintenance"; "Cleaning"]%string.

(** [BreakTimeSchema]: [reason] defaults to ["Break"] and must be in its enum. *)
Definition valid_break (b : BreakTime * option string) : bool :=
  let r := match snd b with Some r => r | None => "Break"%string end in
  existsb (String.eqb r) break_reasons.

(** Casting and validating one rule against [ScheduleSchema] (the update
    runs with [runValidators: true]): required paths, defaults and the
    [min]/[max] bounds. *)
Definition cast_rule (r : RuleIn) : option Schedule :=
  match ri_dayOfWeek r, ri_startTime r, ri_endTime r with
  | Some dow, Some st, Some en =>
      let dur := match ri_slotDuration r with Some d => d | None => 60 end in
      let buf := match ri_bufferTime r with Some b => b | None => 0 end in
      if (0 <=? dow) && (dow <=? 6) && (15 <=? dur) && (dur <=? 480)
         && (0 <=? buf) && (buf <=? 120) && forallb valid_break (ri_breakTimes r)
      then Some (mkSchedule dow (match ri_isEnabled r with Some e => e | None => true end)
                   st en dur buf (map fst (ri_breakTimes r)))
      else None
  | _, _, _ => None
  end.

Fixpoint cast_rules (rs : list RuleIn) : option (list Schedule) :=
  match rs with
  | [] => Some []
  | r :: rest =>
      match cast_rule r, cast_rules rest with
      | Some s, Some ss => Some (s :: ss)
      | _, _ => None
      end
  end.

(** The [customStartTime]/[customEndTime] validators of [ExceptionSchema]. *)
Definition valid_exception (e : DateException) : bool :=
  let ok o := match o with Some v => String.eqb v "" || valid12 v | None => true end in
  ok (customStartTime e) && ok (customEndTime e).

(** The controller's loop of lines 82-98. *)
Definition controller_rule_ok (r : RuleIn) : bool :=
  match ri_dayOfWeek r, ri_startTime r, ri_endTime r, ri_slotDuration r with
  | Some _, Some st, Some en, Some _ => valid12 st && valid12 en
  | _, _, _, _ => false
  end.

Record SetBody := mkSetBody {
  sb_schedules : option (list RuleIn);
  sb_exceptions : option (list DateException);
  sb_timezone : option string;
  sb_advanceBookingDays : option Z
}.

Inductive SetResponse := SetStatus (code : Z) | Stored (a : Availability).

(** [Availability.findOneAndUpdate({ providerId }, data, { upsert, runValidators })]. *)
Definition upsert (w : World) (a : Availability) : World :=
  mkWorld (users w) (services w)
    (a :: filter (fun x => negb (String.eqb (av_providerId x) (av_providerId a))) (availabilities w))
    (bookings w).

(** [setSchedule]: the POST handler. *)
Definition setSchedule (w : World) (user : User) (providerId : string) (body : SetBody)
    : World * SetResponse :=
  match findUser w providerId with
  | None => (w, SetStatus 404)
  | Some provider =>
      if negb (String.eqb (role user) "admin") && negb (String.eqb (u_id user) providerId)
      then (w, SetStatus 403) else
      (* [provider.role.includes('provider')] on the role enum *)
      if negb (String.eqb (role provider) "provider") then (w, SetStatus 403) else
      match sb_schedules body with
      | None | Some [] => (w, SetStatus 400)
      | Some rules =>
          if negb (forallb controller_rule_ok rules) then (w, SetStatus 400) else
          let exs := match sb_exceptions body with Some e => e | None => [] end in
          let tz := match sb_timezone body with Some t => t | None => "Asia/Bahrain"%string end in
          let abd := match sb_advanceBookingDays body with
                     | Some d => if d =? 0 then 30 else d | None => 30 end in
          match cast_rules rules with
          | Some schedules =>
              if forallb valid_exception exs && (0 <=? abd) && (abd <=? 365) then
                let a := mkAvailability providerId schedules exs tz abd in
                (upsert w a, Stored a)
              else (w, SetStatus 500)
          | None => (w, SetStatus 500)
          end
      end
  end.

(** [patchSchedule]: the PATCH handler; absent fields keep their value. *)
Definition patchSchedule (w : World) (user : User) (providerId : string) (body : SetBody)
    : World * SetResponse :=
  match findUser w providerId with
  | None => (w, SetStatus 404)
  | Some _ =>
      if negb (String.eqb (role user) "admin") && negb (String.eqb (u_id user) providerId)
      then (w, SetStatus 403) else
      match findAvailability w providerId with
      | None => (w, SetStatus 404)
      | Some old =>
          match sb_schedules body with
          | Some [] => (w, SetStatus 400)
          | _ =>
              let schedules' := match sb_schedules body with
                                | Some rules => cast_rules rules
                                | None => Some (schedules old)
                                end in
              let exs := match sb_exceptions body with Some e => e | None => exceptions old end in
              let tz := match sb_timezone body with Some t => t | None => timezone old end in
              let abd := match sb_advanceBookingDays body with
                         | Some d => d | None => advanceBookingDays old end in
              match schedules' with
              | Some schedules =>
                  if forallb valid_exception exs && (0 <=? abd) && (abd <=? 365) then
                    let a := mkAvailability providerId schedules exs tz abd in
                    (upsert w a, Stored a)
                  else (w, SetStatus 500)
              | None => (w, SetStatus 500)
              end
          end
      end
  end.

End Schedule.

(* ------------------------------------------------------------------ *)
(** ** [GET] and [DELETE /availability/provider/:providerId]
       (availability.js 17-52 and 178-207) *)

(** [Model.findOneAndDelete] / [findByIdAndDelete] remove the first
    matching document; [findByIdAndUpdate] replaces it. *)
Fixpoint remove_first {A} (p : A -> bool) (l : list A) : list A :=
  match l with
  | [] => []
  | x :: r => if p x then r else x :: remove_first p r
  end.

Fixpoint replace_first {A} (p : A -> bool) (y : A) (l : list A) : list A :=
  match l with
  | [] => []
  | x :: r => if p x then y :: r else x :: replace_first p y r
  end.

(** [l] is [l'] with some elements left out. *)
Inductive subseq {A} : list A -> list A -> Prop :=
  | subseq_nil : subseq [] []
  | subseq_skip x l l' : subseq l l' -> subseq l (x :: l')
  | subseq_keep x l l' : subseq l l' -> subseq (x :: l) (x :: l').

Module ScheduleOps.

Inductive SchedResponse :=
  | SchStatus (code : Z)          (* res.status(code).json({ err }) *)
  | SchFound (a : Availability)   (* res.json(availability) *)
  | SchDeleted.                   (* res.json({ message, deletedScheduleId }) *)

(** [GET /provider/:providerId]; the populated [providerId] of the answer
    is not spelled out. *)
Definition getSchedule (w : World) (user : User) (providerId : string) : SchedResponse :=
  match findUser w providerId with
  | None => SchStatus 404
  | Some _ =>
      let isProviderViewingOwn := String.eqb (u_id user) providerId in
      let isAdmin := String.eqb (role user) "admin" in
      let isCustomer := String.eqb (role user) "customer" in
      if negb isProviderViewingOwn && negb isAdmin && negb isCustomer then SchStatus 403 else
      match findAvailability w providerId with
      | None => SchStatus 404
      | Some a => SchFound a
      end
  end.

(** [DELETE /provider/:providerId]. *)
Definition deleteSchedule (w : World) (user : User) (providerId : string)
    : World * SchedResponse :=
  match findUser w providerId with
  | None => (w, SchStatus 404)
  | Some _ =>
      if negb (String.eqb (role user) "admin") && negb (String.eqb (u_id user) providerId)
      then (w, SchStatus 403) else
      match findAvailability w providerId with
      | None => (w, SchStatus 404)
      | Some _ =>
          (mkWorld (users w) (services w)
             (remove_first (fun a => String.eqb (av_providerId a) providerId) (availabilities w))
             (bookings w), SchDeleted)
      end
  end.

(** The bounds of [ScheduleSchema] on a stored rule. *)
Definition rule_in_bounds (s : Schedule) : bool :=
  (0 <=? dayOfWeek s) && (dayOfWeek s <=? 6) && (15 <=? slotDuration s)
  && (slotDuration s <=? 480) && (0 <=? bufferTime s) && (bufferTime s <=? 120).

Definition av_in_bounds (a : Availability) : bool := forallb rule_in_bounds (schedules a).

End ScheduleOps.

(* ------------------------------------------------------------------ *)
(** ** Listing, reading, updating and deleting bookings (part_013 262-458) *)

Module BookingOps.

(** Operands of [===] and [!==] in these handlers: a JS string, or the
    ObjectId [req.user._id] that [verifyToken] copies from the user document
    (part_000 111-118), given by its hex string. Strict equality between an
    object and a string is false, and between two distinct ObjectId objects
    too. *)
Inductive JSId := JSString (s : string) | JSObjectId (hex : string).

Definition strict_eq (a b : JSId) : bool :=
  match a, b with
  | JSString x, JSString y => String.eqb x y
  | _, _ => false
  end.

(** [x.toString()]: an ObjectId gives its hex string. *)
Definition id_toString (a : JSId) : string := match a with JSString s | JSObjectId s => s end.

(** [doc.k.toString()] on an id path of a stored booking (ObjectIds are
    [VStr] of their hex string); [None]: the path is unset and
    [.toString()] throws. *)
Definition id_field (k : string) (d : Doc) : option string :=
  match get k d with Some (VStr x) => Some x | _ => None end.

Definition has_id (id : string) (d : Doc) : bool :=
  match get "_id" d with Some (VStr x) => String.eqb x id | _ => false end.

Definition with_bookings (w : World) (bs : list Doc) : World :=
  mkWorld (users w) (services w) (availabilities w) bs.

Inductive OpResponse :=
  | OStatus (code : Z)        (* res.status(code).json({ err }) *)
  | OBooking (booking : Doc)  (* res.json(booking) *)
  | OList (bs : list Doc)     (* res.json(bookings) *)
  | ODeleted (id : string)    (* res.json({ message, _id }) *)
  | OUnmodelled.              (* an update outside this model (see [set_pairs]) *)

(** [Booking.find(filter)]. The [.populate] calls and the
    [.sort({ createdAt: -1 })] of the list handlers are not modelled: the
    list is given in store order, and the statements below are about which
    bookings it holds, which the order does not change. *)
Definition find_all (f : list Mongo.Cond) (docs : list Doc) : list Doc :=
  filter (fun d => forallb (Mongo.cond_matches d) f) docs.

(** [GET /bookings] (286-313): the filter by role. *)
Definition role_filter (user : User) : list Mongo.Cond :=
  if String.eqb (role user) "admin" then []
  else if String.eqb (role user) "provider" then [Mongo.CEq "providerId" (VStr (u_id user))]
  else if String.eqb (role user) "customer" then [Mongo.CEq "customerId" (VStr (u_id user))]
  else [].

Definition listBookings (w : World) (user : User) : OpResponse :=
  OList (find_all (role_filter user) (bookings w)).

(** [GET /bookings/provider-bookings] (262-282). *)
Definition providerBookings (w : World) (user : User) : OpResponse :=
  if negb (String.eqb (role user) "provider") && negb (String.eqb (role user) "admin")
  then OStatus 403
  else OList (find_all [Mongo.CEq "providerId" (VStr (u_id user))] (bookings w)).

(** The JSON body of [PATCH]/[PUT]: string values, or an object of string
    values (as under [$set]). *)
Inductive BVal := BStr (s : string) | BObj (fields : list (string * string)).

Definition Body := list (string * BVal).

Definition bget (k : string) (b : Body) : option BVal :=
  match find (fun kv => String.eqb (fst kv) k) b with
  | Some kv => Some (snd kv)
  | None => None
  end.

(** [const updates = { ...req.body }] followed by the five [delete]s. *)
Definition stripped_keys : list string :=
  ["_id"; "customerId"; "providerId"; "serviceId"; "createdAt"]%string.

Definition strip (body : Body) : Body :=
  filter (fun kv => negb (existsb (String.eqb (fst kv)) stripped_keys)) body.

Definition valid_statuses : list string :=
  ["pending"; "confirmed"; "completed"; "cancelled"]%string.

(** [if (updates.status) { if (!validStatuses.includes(updates.status)) ... }]:
    [true] when the handler answers 400. *)
Definition bad_status (updates : Body) : bool :=
  match bget "status" updates with
  | Some (BStr s) => negb (String.eqb s "") && negb (existsb (String.eqb s) valid_statuses)
  | Some (BObj _) => true
  | None => false
  end.

(** Outcome of casting an update: the cast value, a [CastError] or
    [ValidationError] (answered with 500), or an update this model does
    not cover. *)
Inductive Cast (A : Type) := COk (a : A) | CFail | CUnmodelled.
Arguments COk {A} a.
Arguments CFail {A}.
Arguments CUnmodelled {A}.

Definition cast_app {A} (x y : Cast (list A)) : Cast (list A) :=
  match x, y with
  | COk a, COk b => COk (a ++ b)
  | CUnmodelled, _ | _, CUnmodelled => CUnmodelled
  | _, _ => CFail
  end.

Definition is_operator (k : string) : bool :=
  match k with String c _ => Ascii.eqb c "$" | EmptyString => false end.

(** Mongoose's [castUpdate]: a top-level key that is not an operator is a
    [$set] of that path, the fields of a [$set] object are taken as they
    are, and paths outside [bookingSchema] are dropped (strict mode).
    Other operators ([$inc], [$unset], ...) and object values for schema
    paths are not modelled. *)
Fixpoint set_pairs (updates : Body) : Cast (list (string * string)) :=
  match updates with
  | [] => COk []
  | (k, v) :: rest =>
      let here :=
        if is_operator k then
          if String.eqb k "$set" then
            match v with
            | BObj fs => COk (filter (fun kv => Mongo.in_paths (fst kv)) fs)
            | BStr _ => CUnmodelled
            end
          else CUnmodelled
        else if Mongo.in_paths k then
          match v with BStr s => COk [(k, s)] | BObj _ => CUnmodelled end
        else COk [] in
      cast_app here (set_pairs rest)
  end.

(** [doc.set(k, v)]: the first field named [k] is replaced, or the field
    is added. *)
Fixpoint set_field (k : string) (v : Val) (d : Doc) : Doc :=
  match d with
  | [] => [(k, v)]
  | (k', v') :: r => if String.eqb k' k then (k, v) :: r else (k', v') :: set_field k v r
  end.

Definition apply_set (sets : list (string * Val)) (d : Doc) : Doc :=
  fold_left (fun d kv => set_field (fst kv) (snd kv) d) sets d.

Section Ops.

(** Whether a string casts to an ObjectId, and Mongoose's cast of a string
    to a [Date]. *)
Variable is_oid : string -> bool.
Variable cast_date : string -> option Z.

(** [Booking.findById(id)]: an id that is not an ObjectId throws a
    [CastError] ([None]). *)
Definition findById (w : World) (id : string) : option (option Doc) :=
  if is_oid id then Some (find (has_id id) (bookings w)) else None.

(** Casting one [$set] pair to its schema type, with the update validators
    ([runValidators: true]): the [status] enum, [Date] and ObjectId casts.
    Setting [_id] and the timestamps is not modelled. *)
Definition cast_pair (kv : string * string) : Cast (string * Val) :=
  let (k, s) := kv in
  if String.eqb k "status" then
    if existsb (String.eqb s) valid_statuses then COk (k, VStr s) else CFail
  else if String.eqb k "date" then
    match cast_date s with Some ms => COk (k, VDate ms) | None => CFail end
  else if existsb (String.eqb k) ["serviceId"; "customerId"; "providerId"; "messages"]%string then
    if is_oid s then COk (k, VStr s) else CFail
  else CUnmodelled.

Fixpoint cast_all (ps : list (string * string)) : Cast (list (string * Val)) :=
  match ps with
  | [] => COk []
  | p :: r =>
      cast_app (match cast_pair p with COk x => COk [x] | CFail => CFail | CUnmodelled => CUnmodelled end)
               (cast_all r)
  end.

(** [PATCH /bookings/:bookingId] (342-383). The [timestamps] option also
    sets [updatedAt]; the documents here carry no timestamps. *)
Definition patchBooking (w : World) (user : User) (bookingId : string) (body : Body)
    : World * OpResponse :=
  match findById w bookingId with
  | None => (w, OStatus 500)
  | Some None => (w, OStatus 404)
  | Some (Some existing) =>
      let userId := JSObjectId (u_id user) in
      match id_field "customerId" existing, id_field "providerId" existing with
      | Some c, Some p =>
          let isCustomer := String.eqb (id_toString userId) c in
          let isProvider := String.eqb (id_toString userId) p in
          if negb isCustomer && negb isProvider && negb (String.eqb (role user) "admin")
          then (w, OStatus 403) else
          let updates := strip body in
          if bad_status updates then (w, OStatus 400) else
          match set_pairs updates with
          | CUnmodelled => (w, OUnmodelled)
          | CFail => (w, OStatus 500)
          | COk pairs =>
              match cast_all pairs with
              | CUnmodelled => (w, OUnmodelled)
              | CFail => (w, OStatus 500)
              | COk sets =>
                  let updated := apply_set sets existing in
                  (with_bookings w (replace_first (has_id bookingId) updated (bookings w)),
                   OBooking updated)
              end
          end
      | _, _ => (w, OStatus 500)
      end
  end.

(** [PUT /bookings/:bookingId] (386-429) has the same body as [PATCH]. *)
Definition putBooking (w : World) (user : User) (bookingId : string) (body : Body)
    : World * OpResponse :=
  patchBooking w user bookingId body.

(** [DELETE /bookings/:bookingId] (433-456). [userId] is an ObjectId and
    is compared with [!==] to strings. *)
Definition deleteBooking (w : World) (user : User) (bookingId : string) : World * OpResponse :=
  match findById w bookingId with
  | None => (w, OStatus 500)
  | Some None => (w, OStatus 404)
  | Some (Some booking) =>
      let userId := JSObjectId (u_id user) in
      let differs k := option_map (fun x => negb (strict_eq userId (JSString x))) (id_field k booking) in
      let deny :=
        if negb (String.eqb (role user) "admin") then
          match differs "customerId"%string with
          | None => None
          | Some false => Some false
          | Some true => differs "providerId"%string
          end
        else Some false in
      match deny with
      | None => (w, OStatus 500)
      | Some true => (w, OStatus 403)
      | Some false =>
          (with_bookings w (remove_first (has_id bookingId) (bookings w)), ODeleted bookingId)
      end
  end.

(** [GET /bookings/:bookingId] (318-338). After [.populate], [customerId]
    and [providerId] hold the user documents, or [null] when no such user
    exists; [doc_toString] is [toString] of a populated document. *)
Variable doc_toString : User -> string.

Definition getBooking (w : World) (user : User) (bookingId : string) : OpResponse :=
  match findById w bookingId with
  | None => OStatus 500
  | Some None => OStatus 404
  | Some (Some booking) =>
      let userId := JSObjectId (u_id user) in
      let populated k := match id_field k booking with Some x => findUser w x | None => None end in
      let differs k :=
        option_map (fun u => negb (strict_eq userId (JSString (doc_toString u)))) (populated k) in
      let deny :=
        if negb (String.eqb (role user) "admin") then
          match differs "customerId"%string with
          | None => None
          | Some false => Some false
          | Some true => differs "providerId"%string
          end
        else Some false in
      match deny with
      | None => OStatus 500
      | Some true => OStatus 403
      | Some false => OBooking booking
      end
  end.

End Ops.


End BookingOps.

(* ------------------------------------------------------------------ *)
(** ** Concrete data used by the examples below *)

Module Fixtures.

Definition provider : User := mkUser "p1" "provider".
Definition customer : User := mkUser "c1" "customer".

(** The Monday rule of the spec's scenario, 09:00 AM to 05:00 PM. *)
Definition monday (dur : Z) (breaks : list BreakTime) : Schedule :=
  mkSchedule 1 true "09:00 AM" "05:00 PM" dur 0 breaks.

Definition avail (dur : Z) : Availability :=
  mkAvailability "p1" [monday dur []] [] "Asia/Bahrain" 30.

Definition world (dur : Z) : World :=
  mkWorld [provider; customer] [mkService "s1" "p1"] [avail dur] [].

(** Monday 2 November 2026, 00:00 UTC, and a year and a month later
    (Monday 6 December 2027). *)
Definition nov2 : Z := 1793577600000.
Definition dec6_2027 : Z := 1828051200000.
(** Sunday 1 November 2026, 12:00 UTC. *)
Definition now : Z := nov2 - 12 * 3600000.

Definition req (slot : string) : Booking.BookingReq :=
  Booking.mkReq (Some "s1"%string) (Some "c1"%string) (Some "p1"%string)
    (Some (Booking.Valid nov2)) (Some slot).

End Fixtures.

(** Names used in the statements about the time format and the slots. *)
Module RoundTrip.

Definition all_ascii : list ascii := map ascii_of_nat (seq 0 256).

(** The hour conversion of [parseTimeString]. *)
Definition to24 (hours : Z) (period : string) : Z :=
  let hours := if String.eqb period "PM" && negb (hours =? 12) then hours + 12 else hours in
  if String.eqb period "AM" && (hours =? 12) then 0 else hours.

Definition display (hours : Z) : Z :=
  if hours =? 0 then 12 else if hours >? 12 then hours - 12 else hours.
Definition period_str (hours : Z) : string :=
  if hours >=? 12 then "PM"%string else "AM"%string.

(** What [formatTimeString] at minute [t] of the day should give back:
    the same hour and minute through [parseTimeString], a string of the
    12-hour grammar, already in normal form. *)
Definition fmt_ok (t : Z) : bool :=
  match parseTimeString (formatTimeString t) with
  | Some (h, m) => (h =? getHours t) && (m =? getMinutes t)
  | None => false
  end && valid12 (formatTimeString t)
  && String.eqb (normalize (formatTimeString t)) (formatTimeString t).

End RoundTrip.

Module Shape.

(** The slot emitted at cursor [c]. *)
Definition slot_at (dur c : Z) : Slot := mkSlot (formatTimeString c) (formatTimeString (c + dur)) true.

(** Ascending, and each slot ends before the next one starts. *)
Definition apart (dur a b : Z) : Prop := a < b /\ a + dur <= b.

End Shape.

Module BadRules.

(** A rule from 05:00 PM to 09:00 AM, and a one-hour rule with 480-minute
    slots. *)
Definition reversed : Schedule.RuleIn :=
  Schedule.mkRuleIn (Some 1) None (Some "05:00 PM"%string) (Some "09:00 AM"%string) (Some 60) None [].
Definition too_long : Schedule.RuleIn :=
  Schedule.mkRuleIn (Some 2) None (Some "09:00 AM"%string) (Some "10:00 AM"%string) (Some 480) None [].

Definition body (r : Schedule.RuleIn) : Schedule.SetBody :=
  Schedule.mkSetBody (Some [r]) None None None.

End BadRules.

Module Bodies.

(** A POST body with one Monday rule, 09:00 AM to 05:00 PM, 60-minute slots. *)
Definition nine_to_five : Schedule.SetBody :=
  BadRules.body (Schedule.mkRuleIn (Some 1) None (Some "09:00 AM"%string) (Some "05:00 PM"%string)
                   (Some 60) None []).

End Bodies.

Module OpsFixtures.

Definition admin : User := mkUser "a1" "admin".
Definition other : User := mkUser "c2" "customer".

(** A cancelled booking of customer [c1] with provider [p1], and a
    confirmed one of customer [c2]. *)
Definition b1 : Doc :=
  [("_id"%string, VStr "b1"); ("serviceId"%string, VStr "s1"); ("customerId"%string, VStr "c1");
   ("providerId"%string, VStr "p1"); ("date"%string, VDate Fixtures.nov2);
   ("status"%string, VStr "cancelled")].
Definition b2 : Doc :=
  [("_id"%string, VStr "b2"); ("serviceId"%string, VStr "s1"); ("customerId"%string, VStr "c2");
   ("providerId"%string, VStr "p1"); ("date"%string, VDate Fixtures.nov2);
   ("status"%string, VStr "confirmed")].

Definition world : World :=
  mkWorld [Fixtures.provider; Fixtures.customer; admin; other] [mkService "s1" "p1"]
    [Fixtures.avail 60] [b1; b2].

(** Every id of these fixtures stands for a valid ObjectId; no date string
    is cast. *)
Definition any_oid (_ : string) : bool := true.
Definition no_date (_ : string) : option Z := None.

(** Customer [c2] asks for the same slot as [Fixtures.req "10:00 AM"]. *)
Definition req_c2 : Booking.BookingReq :=
  Booking.mkReq (Some "s1"%string) (Some "c2"%string) (Some "p1"%string)
    (Some (Booking.Valid Fixtures.nov2)) (Some "10:00 AM"%string).

End OpsFixtures.

Module Dup.

(** The document [Booking.create] stores for a request; [timeSlot] is not
    among them since [bookingSchema] has no such path. *)
Definition stored : Doc :=
  [("serviceId"%string, VStr "s1"); ("customerId"%string, VStr "c1");
   ("providerId"%string, VStr "p1"); ("date"%string, VDate Fixtures.nov2);
   ("status"%string, VStr "pending")].

(** The object the handler passes to [Booking.create]. *)
Definition obj : Doc :=
  [("serviceId"%string, VStr "s1"); ("customerId"%string, VStr "c1");
   ("providerId"%string, VStr "p1"); ("date"%string, VDate Fixtures.nov2);
   ("timeSlot"%string, VStr "10:00 AM"); ("status"%string, VStr "pending")].

(** The same for customer [c2]'s request for that slot. *)
Definition obj_c2 : Doc :=
  [("serviceId"%string, VStr "s1"); ("customerId"%string, VStr "c2");
   ("providerId"%string, VStr "p1"); ("date"%string, VDate Fixtures.nov2);
   ("timeSlot"%string, VStr "10:00 AM"); ("status"%string, VStr "pending")].

(** Pending or confirmed bookings of provider [p1] on 2 November 2026. *)
Definition active_on_nov2 (d : Doc) : bool :=
  forallb (Mongo.cond_matches d)
    [Mongo.CEq "providerId" (VStr "p1"); Mongo.CEq "date" (VDate Fixtures.nov2);
     Mongo.CIn "status" Booking.active_statuses].

End Dup.

(* ------------------------------------------------------------------ *)
(** ** Checks on small inputs *)

Example parse_0930 : parseTimeString "09:30 am" = Some (9, 30).
Proof. reflexivity. Qed.
Example fmt_1330 : formatTimeString (13 * 60 + 5) = "1:05 PM"%string.
Proof. reflexivity. Qed.
Example fmt_0000 : formatTimeString 0 = "12:00 AM"%string.
Proof. reflexivity. Qed.
Example norm_0930 : normalize "09:30	pm" = "9:30 PM"%string.
Proof. reflexivity. Qed.

(* ------------------------------------------------------------------ *)
(** ** Round trip of the time format *)

Module RoundTripFacts.
Import RoundTrip.


Lemma in_all_ascii (c : ascii) : In c all_ascii.
Proof.
  unfold all_ascii. rewrite <- (ascii_nat_embedding c) at 1.
  apply in_map, in_seq. pose proof (nat_ascii_bounded c). lia.
Qed.

Lemma ascii_enum (f : ascii -> bool) (c : ascii) :
  f c = true -> In c (filter f all_ascii).
Proof. intro H. apply filter_In. split; [apply in_all_ascii | exact H]. Qed.

Ltac enum_char H :=
  apply ascii_enum in H; vm_compute in H;
  repeat (destruct H as [<- | H]); [..| contradiction].


Lemma parseTimeString_eq (s : string) :
  parseTimeString s =
  match match_time s with
  | None => None
  | Some (g1, g2, g3) => Some (to24 (parseInt g1) (map_upper g3), parseInt g2)
  end.
Proof. reflexivity. Qed.


Lemma formatTimeString_hm (h m : Z) :
  0 <= h < 24 -> 0 <= m < 60 ->
  formatTimeString (60 * h + m) =
  (toString (display h) ++ ":" ++ padStart2 (toString m) ++ " " ++ period_str h)%string.
Proof.
  intros Hh Hm. unfold formatTimeString, getHours, getMinutes, display, period_str.
  assert (E1 : (60 * h + m) / 60 = h).
  { rewrite Z.mul_comm, Z.div_add_l by lia. rewrite Z.div_small by lia. lia. }
  assert (E2 : (60 * h + m) mod 60 = m).
  { rewrite Z.mul_comm, Z.add_comm, Z.mod_add by lia. apply Z.mod_small; lia. }
  rewrite E1, E2, (Z.mod_small h 24) by lia. reflexivity.
Qed.

Lemma period_cases (a m : ascii) :
  is_period a m = true ->
  map_upper (String a (String m EmptyString)) = "AM"%string \/
  map_upper (String a (String m EmptyString)) = "PM"%string.
Proof.
  intro H. unfold is_period in H.
  apply andb_prop in H as [Ha Hm]. apply orb_prop in Ha.
  apply Ascii.eqb_eq in Hm. simpl. rewrite Hm.
  destruct Ha as [Ha | Ha]; apply Ascii.eqb_eq in Ha; rewrite Ha; auto.
Qed.

Lemma minutes_roundtrip (m1 m2 : ascii) :
  in_range 48 53 m1 = true -> is_digit m2 = true ->
  let v := parseInt (String m1 (String m2 EmptyString)) in
  0 <= v < 60 /\ padStart2 (toString v) = String m1 (String m2 EmptyString).
Proof.
  intros H1 H2. enum_char H1; enum_char H2; repeat split; vm_compute; congruence.
Qed.

Lemma hour_roundtrip (hs P : string) :
  hour12 hs = true -> (P = "AM"%string \/ P = "PM"%string) ->
  let h := to24 (parseInt hs) P in
  0 <= h < 24 /\ toString (display h) = strip0 hs /\ period_str h = P /\
  ((String.length hs =? 1)%nat || (String.length hs =? 2)%nat) && all_digits hs = true.
Proof.
  intros H HP.
  destruct hs as [|c1 [|c2 [|c3 r]]]; try discriminate.
  - simpl in H. enum_char H; destruct HP as [-> | ->]; repeat split; vm_compute; congruence.
  - simpl in H. apply orb_prop in H as [H | H]; apply andb_prop in H as [Hc1 Hc2];
      apply Ascii.eqb_eq in Hc1; subst c1;
      enum_char Hc2; destruct HP as [-> | ->]; repeat split; vm_compute; congruence.
Qed.

End RoundTripFacts.

Lemma in_range_digit (c : ascii) : in_range 48 53 c = true -> is_digit c = true.
Proof.
  unfold in_range, is_digit. intro H.
  apply andb_prop in H as [H1 H2]. apply Z.leb_le in H1, H2.
  apply andb_true_intro. split; apply Z.leb_le; lia.
Qed.

(** C8: for every string matching the 12-hour grammar [(0?[1-9]|1[0-2]):[0-5]\d\s?(AM|PM)]
    (any case), formatting the time [parseTimeString] reads from it gives the
    normal form of the string: hour without leading zero, one space,
    upper-case period. *)
Theorem formatTimeString_parseTimeString (s : string) :
  valid12 s = true ->
  option_map (fun p => formatTimeString (at_time p)) (parseTimeString s) = Some (normalize s).
Proof.
  intro H. rewrite RoundTripFacts.parseTimeString_eq.
  unfold valid12, normalize, match_time in *.
  destruct (split_colon s) as [[hs rest]|]; [|discriminate].
  destruct rest as [|m1 [|m2 r]]; try discriminate.
  apply andb_prop in H as [H Ht]; apply andb_prop in H as [H Hd];
    apply andb_prop in H as [Hh Hm].
  pose proof (RoundTripFacts.minutes_roundtrip m1 m2 Hm Hd) as [Mr Mp].
  rewrite (in_range_digit m1 Hm), Hd.
  destruct r as [|a [|m [|x [|y r']]]]; try discriminate.
  - pose proof (RoundTripFacts.period_cases a m Ht) as HP.
    destruct (RoundTripFacts.hour_roundtrip hs _ Hh HP) as (Hr & Hdisp & Hper & Hlen).
    rewrite Hlen. cbn [andb]. simpl in Ht. rewrite Ht.
    cbn [option_map period_of]. f_equal. unfold at_time; cbn [fst snd].
    rewrite RoundTripFacts.formatTimeString_hm by assumption.
    rewrite Hdisp, Hper, Mp. reflexivity.
  - simpl in Ht. apply andb_prop in Ht as [Hw Ht].
    pose proof (RoundTripFacts.period_cases m x Ht) as HP.
    destruct (RoundTripFacts.hour_roundtrip hs _ Hh HP) as (Hr & Hdisp & Hper & Hlen).
    rewrite Hlen. cbn [andb]. rewrite Hw, Ht.
    cbn [option_map period_of andb]. f_equal. unfold at_time; cbn [fst snd].
    rewrite RoundTripFacts.formatTimeString_hm by assumption.
    rewrite Hdisp, Hper, Mp. reflexivity.
Qed.


(* ------------------------------------------------------------------ *)
(** ** The slots endpoint on the spec's Monday scenario *)

Lemma view_guard (user : User) (providerId : string) :
  String.eqb (u_id user) providerId || String.eqb (role user) "admin"
    || String.eqb (role user) "customer" = true ->
  negb (String.eqb (u_id user) providerId) && negb (String.eqb (role user) "admin")
    && negb (String.eqb (role user) "customer") = false.
Proof.
  destruct (String.eqb (u_id user) providerId), (String.eqb (role user) "admin"),
    (String.eqb (role user) "customer"); simpl; congruence.
Qed.

Lemma formatTimeString_parseTimeString_witness :
  valid12 "09:05	pm" = true /\
  option_map (fun p => formatTimeString (at_time p)) (parseTimeString "09:05	pm") =
    Some (normalize "09:05	pm") /\
  normalize "09:05	pm" = "9:05 PM"%string.
Proof.
  split; [reflexivity|]. split; [|reflexivity].
  apply formatTimeString_parseTimeString. reflexivity.
Defined.

(** C3: a provider whose Monday rule is 09:00 AM to 05:00 PM, 60-minute slots,
    no buffer and no breaks, with no exception recorded for the requested
    Monday, gets exactly the eight one-hour slots 9:00 AM ... 4:00 PM. *)
Theorem getSlots_monday_nine_to_five (w : World) (user provider : User) (providerId : string)
    (rd : Z) (av : Availability) (sch : Schedule) :
  findUser w providerId = Some provider ->
  String.eqb (u_id user) providerId || String.eqb (role user) "admin"
    || String.eqb (role user) "customer" = true ->
  findAvailability w providerId = Some av ->
  getDay rd = 1 ->
  find (fun s => (dayOfWeek s =? 1) && isEnabled s) (schedules av) = Some sch ->
  startTime sch = "09:00 AM"%string -> endTime sch = "05:00 PM"%string ->
  slotDuration sch = 60 -> bufferTime sch = 0 -> breakTimes sch = [] ->
  find (fun e => iso_day (ex_date e) =? iso_day rd) (exceptions av) = None ->
  Slots.getSlots w user providerId (Some rd) =
  Slots.Slots
    [mkSlot "9:00 AM" "10:00 AM" true; mkSlot "10:00 AM" "11:00 AM" true;
     mkSlot "11:00 AM" "12:00 PM" true; mkSlot "12:00 PM" "1:00 PM" true;
     mkSlot "1:00 PM" "2:00 PM" true; mkSlot "2:00 PM" "3:00 PM" true;
     mkSlot "3:00 PM" "4:00 PM" true; mkSlot "4:00 PM" "5:00 PM" true]
    "09:00 AM" "05:00 PM" 60 0 (timezone av).
Proof.
  intros Hp Hv Ha Hd Hs Hst Hen Hdur Hbuf Hbr Hex.
  unfold Slots.getSlots. rewrite Hp. cbv zeta. rewrite (view_guard _ _ Hv).
  cbv iota. rewrite Ha, Hd, Hs, Hex.
  unfold Slots.respond. rewrite Hst, Hen, Hdur, Hbuf, Hbr. vm_compute. reflexivity.
Qed.

Lemma getSlots_monday_nine_to_five_witness :
  Slots.getSlots (Fixtures.world 60) Fixtures.customer "p1" (Some Fixtures.nov2) =
  Slots.Slots
    [mkSlot "9:00 AM" "10:00 AM" true; mkSlot "10:00 AM" "11:00 AM" true;
     mkSlot "11:00 AM" "12:00 PM" true; mkSlot "12:00 PM" "1:00 PM" true;
     mkSlot "1:00 PM" "2:00 PM" true; mkSlot "2:00 PM" "3:00 PM" true;
     mkSlot "3:00 PM" "4:00 PM" true; mkSlot "4:00 PM" "5:00 PM" true]
    "09:00 AM" "05:00 PM" 60 0 "Asia/Bahrain".
Proof.
  apply (getSlots_monday_nine_to_five (Fixtures.world 60) Fixtures.customer Fixtures.provider
           "p1" Fixtures.nov2 (Fixtures.avail 60) (Fixtures.monday 60 []));
    reflexivity.
Defined.

(* ------------------------------------------------------------------ *)
(** ** Shape of the generated slots *)

Module ShapeFacts.
Import Shape.


Lemma gen_loop_shape (fuel : nat) (endT dur buf : Z) (brks : list BreakTime) :
  0 < dur -> 0 <= buf ->
  forall cur slots, Gen.gen_loop fuel endT dur buf brks cur = Gen.Ok slots ->
  exists cs, slots = map (slot_at dur) cs /\ StronglySorted (apart dur) cs /\
             Forall (fun c => cur <= c /\ c + dur <= endT) cs.
Proof.
  intros Hdur Hbuf. induction fuel as [|fuel IH]; intros cur slots H; simpl in H.
  - discriminate.
  - destruct (cur <? endT) eqn:Hlt.
    + destruct (Gen.some_opt _ brks) as [isb|]; [|discriminate].
      destruct (Gen.gen_loop fuel endT dur buf brks (cur + dur + buf)) as [rest| |] eqn:Hr;
        try discriminate.
      destruct (IH _ _ Hr) as (cs & -> & Hs & Hf).
      destruct (negb isb && (cur + dur <=? endT)) eqn:Hemit; injection H as <-.
      * apply andb_prop in Hemit as [_ Hle]. apply Z.leb_le in Hle.
        exists (cur :: cs). split; [reflexivity|]. split.
        -- constructor; [exact Hs|].
           eapply Forall_impl; [|exact Hf]. intros c [Hc _]. unfold apart. lia.
        -- constructor; [lia|]. eapply Forall_impl; [|exact Hf]. intros c [Hc Hc']. lia.
      * exists cs. split; [reflexivity|]. split; [exact Hs|].
        eapply Forall_impl; [|exact Hf]. intros c [Hc Hc']. lia.
    + injection H as <-. exists []. repeat constructor.
Qed.

End ShapeFacts.

(** C7: for a positive slot duration (the schema's minimum is 15) and a
    non-negative buffer, the slots of [generateTimeSlots] are emitted at
    cursors that are strictly ascending and pairwise non-overlapping: each
    slot ends no later than the next one starts. *)
Theorem generateTimeSlots_sorted_disjoint (startTime endTime : string) (dur buf : Z)
    (brks : list BreakTime) (slots : list Slot) :
  0 < dur -> 0 <= buf ->
  Gen.generateTimeSlots startTime endTime dur buf brks = Gen.Ok slots ->
  exists cs, slots = map (Shape.slot_at dur) cs /\ StronglySorted (Shape.apart dur) cs.
Proof.
  intros Hd Hb H. unfold Gen.generateTimeSlots in H.
  destruct (parseTimeString startTime) as [st|], (parseTimeString endTime) as [en|];
    try discriminate.
  destruct (ShapeFacts.gen_loop_shape _ _ _ _ _ Hd Hb _ _ H) as (cs & E & S & _).
  exists cs. split; assumption.
Qed.

Lemma generateTimeSlots_sorted_disjoint_witness :
  0 < 60 /\ 0 <= 0 /\
  exists cs, [mkSlot "9:00 AM" "10:00 AM" true; mkSlot "10:00 AM" "11:00 AM" true]
             = map (Shape.slot_at 60) cs /\ StronglySorted (Shape.apart 60) cs.
Proof.
  split; [lia|]. split; [lia|].
  apply (generateTimeSlots_sorted_disjoint "9:00 AM" "11:00 AM" 60 0 []); [lia | lia |].
  reflexivity.
Defined.

(* ------------------------------------------------------------------ *)
(** ** Breaks and the end of the window *)

(** C4 (the code falls short): with the window 09:30 AM to 05:30 PM,
    60-minute slots and a break 12:00 PM to 01:00 PM, [generateTimeSlots]
    emits the slot 11:30 AM to 12:30 PM (cursor 690), which overlaps the
    break [[720, 780)] at minute resolution. *)
Theorem generateTimeSlots_emits_slot_over_break :
  exists slots,
    Gen.generateTimeSlots "09:30 AM" "05:30 PM" 60 0 [mkBreak "12:00 PM" "01:00 PM"] = Gen.Ok slots /\
    In (Shape.slot_at 60 690) slots /\
    Shape.slot_at 60 690 = mkSlot "11:30 AM" "12:30 PM" true /\
    690 < 780 /\ 690 + 60 > 720.
Proof.
  eexists. split; [vm_compute; reflexivity|].
  split; [vm_compute; tauto|]. split; [vm_compute; reflexivity | lia].
Qed.

(** The slots of [generateTimeSlots] all end by the end of the window. *)
Lemma generateTimeSlots_within_window (startTime endTime : string) (dur buf : Z)
    (brks : list BreakTime) (slots : list Slot) (st en : Z * Z) :
  0 < dur -> 0 <= buf ->
  parseTimeString startTime = Some st -> parseTimeString endTime = Some en ->
  Gen.generateTimeSlots startTime endTime dur buf brks = Gen.Ok slots ->
  exists cs, slots = map (Shape.slot_at dur) cs /\
             Forall (fun c => at_time st <= c /\ c + dur <= at_time en) cs.
Proof.
  intros Hd Hb Hst Hen H. unfold Gen.generateTimeSlots in H. rewrite Hst, Hen in H.
  destruct (ShapeFacts.gen_loop_shape _ _ _ _ _ Hd Hb _ _ H) as (cs & E & _ & F).
  exists cs. split; assumption.
Qed.

(** C5 (the code falls short): the re-derivation of [createBooking] has no
    end-of-window test. With the rule 09:00 AM to 05:00 PM and 90-minute
    slots it offers 4:30 PM to 6:00 PM (cursor 990, and 990 + 90 > 1020),
    and a booking for 4:30 PM is accepted. *)
Theorem internal_slot_past_window_end :
  exists slots,
    Internal.getAvailableSlotsInternal (Fixtures.world 90) "p1" Fixtures.nov2 = Gen.Ok slots /\
    In (Shape.slot_at 90 990) slots /\
    Shape.slot_at 90 990 = mkSlot "4:30 PM" "6:00 PM" true /\
    990 + 90 > at_time (17, 0) /\
    exists booking,
      snd (Booking.createBooking false (Fixtures.world 90) Fixtures.customer Fixtures.now
             (Fixtures.req "4:30 PM")) = Booking.Created booking.
Proof.
  eexists. split; [vm_compute; reflexivity|].
  split; [vm_compute; tauto|]. split; [vm_compute; reflexivity|]. split; [vm_compute; reflexivity|].
  eexists. vm_compute. reflexivity.
Qed.

(* ------------------------------------------------------------------ *)
(** ** Slots never consult the bookings *)

Module Avail.

Lemma gen_loop_available fuel endT dur buf brks :
  forall cur slots, Gen.gen_loop fuel endT dur buf brks cur = Gen.Ok slots ->
  Forall (fun s => available s = true) slots.
Proof.
  induction fuel as [|fuel IH]; intros cur slots H; simpl in H; [discriminate|].
  destruct (cur <? endT); [|injection H as <-; constructor].
  destruct (Gen.some_opt _ brks) as [isb|]; [|discriminate].
  destruct (Gen.gen_loop fuel endT dur buf brks _) as [rest| |] eqn:Hr; try discriminate.
  specialize (IH _ _ Hr).
  destruct (negb isb && _); injection H as <-; [constructor; [reflexivity|]|]; exact IH.
Qed.

Lemma internal_loop_available fuel endT dur buf brks :
  forall cur slots, Internal.loop fuel endT dur buf brks cur = Gen.Ok slots ->
  Forall (fun s => available s = true) slots.
Proof.
  induction fuel as [|fuel IH]; intros cur slots H; simpl in H; [discriminate|].
  destruct (cur <? endT); [|injection H as <-; constructor].
  destruct (Gen.some_opt _ brks) as [isb|]; [|discriminate].
  destruct (Internal.loop fuel endT dur buf brks _) as [rest| |] eqn:Hr; try discriminate.
  specialize (IH _ _ Hr).
  destruct (negb isb); injection H as <-; [constructor; [reflexivity|]|]; exact IH.
Qed.

Lemma generateTimeSlots_available st en dur buf brks slots :
  Gen.generateTimeSlots st en dur buf brks = Gen.Ok slots ->
  Forall (fun s => available s = true) slots.
Proof.
  unfold Gen.generateTimeSlots.
  destruct (parseTimeString st), (parseTimeString en); try discriminate.
  apply gen_loop_available.
Qed.

Ltac split_match H :=
  match type of H with
  | context [match ?x with _ => _ end] => destruct x eqn:?
  end.

Lemma getSlots_available w user providerId rd slots a b c d e :
  Slots.getSlots w user providerId rd = Slots.Slots slots a b c d e ->
  Forall (fun s => available s = true) slots.
Proof.
  intro H. unfold Slots.getSlots, Slots.respond in H.
  repeat (split_match H; try discriminate; cbv zeta in H).
  all: try (injection H as <- _ _ _ _ _; eapply generateTimeSlots_available; eassumption).
  all: destruct (_ && _); try discriminate; try (destruct (negb _); try discriminate);
       repeat (split_match H; try discriminate);
       injection H as <- _ _ _ _ _; eapply generateTimeSlots_available; eassumption.
Qed.

Lemma internal_available w providerId rd slots :
  Internal.getAvailableSlotsInternal w providerId rd = Gen.Ok slots ->
  Forall (fun s => available s = true) slots.
Proof.
  intro H. unfold Internal.getAvailableSlotsInternal in H.
  repeat (split_match H; cbv zeta in H).
  all: try (injection H as <-; constructor; fail).
  all: try discriminate.
  all: injection H as <-; eapply internal_loop_available; eassumption.
Qed.

End Avail.

(** C10: both slot generators ignore the booking collection: replacing the
    stored bookings changes neither [getSlots] nor the re-derivation of
    [createBooking], and every slot they emit carries [available = true]. *)
Theorem slots_ignore_bookings (w : World) (bs : list Doc) (user : User) (providerId : string)
    (rd : option Z) (ms : Z) :
  let w' := mkWorld (users w) (services w) (availabilities w) bs in
  Slots.getSlots w' user providerId rd = Slots.getSlots w user providerId rd /\
  Internal.getAvailableSlotsInternal w' providerId ms =
    Internal.getAvailableSlotsInternal w providerId ms /\
  (forall slots a b c d e, Slots.getSlots w user providerId rd = Slots.Slots slots a b c d e ->
     Forall (fun s => available s = true) slots) /\
  (forall slots, Internal.getAvailableSlotsInternal w providerId ms = Gen.Ok slots ->
     Forall (fun s => available s = true) slots).
Proof.
  cbv zeta. split; [reflexivity|]. split; [reflexivity|]. split.
  - intros slots a b c d e. apply Avail.getSlots_available.
  - apply Avail.internal_available.
Qed.

(** An active booking of the 10:00 AM slot does not remove it from [getSlots]. *)
Lemma slots_ignore_bookings_witness :
  let booked := mkWorld [Fixtures.provider; Fixtures.customer] [mkService "s1" "p1"]
                  [Fixtures.avail 60]
                  [[("providerId"%string, VStr "p1"); ("date"%string, VDate Fixtures.nov2);
                    ("timeSlot"%string, VStr "10:00 AM"); ("status"%string, VStr "pending")]] in
  Slots.getSlots booked Fixtures.customer "p1" (Some Fixtures.nov2) =
    Slots.getSlots (Fixtures.world 60) Fixtures.customer "p1" (Some Fixtures.nov2) /\
  exists slots a b c d e,
    Slots.getSlots (Fixtures.world 60) Fixtures.customer "p1" (Some Fixtures.nov2) =
      Slots.Slots slots a b c d e /\ In (mkSlot "10:00 AM" "11:00 AM" true) slots.
Proof.
  cbv zeta. split.
  - exact (proj1 (slots_ignore_bookings (Fixtures.world 60)
             [[("providerId"%string, VStr "p1"); ("date"%string, VDate Fixtures.nov2);
               ("timeSlot"%string, VStr "10:00 AM"); ("status"%string, VStr "pending")]]
             Fixtures.customer "p1" (Some Fixtures.nov2) 0)).
  - do 6 eexists. split; [vm_compute; reflexivity | vm_compute; tauto].
Defined.

(* ------------------------------------------------------------------ *)
(** ** The booking horizon *)

(** C6, as the spec states it, fails: with [advanceBookingDays = 30] and
    today 1 November 2026, the slots endpoint still offers the eight slots of
    Monday 6 December 2027, 399 days ahead. *)
Lemma getSlots_beyond_horizon :
  advanceBookingDays (Fixtures.avail 60) = 30 /\
  Fixtures.dec6_2027 > Fixtures.now + (30 + 1) * ms_per_day /\
  exists slots a b c d e,
    Slots.getSlots (Fixtures.world 60) Fixtures.customer "p1" (Some Fixtures.dec6_2027) =
      Slots.Slots slots a b c d e /\ length slots = 8%nat.
Proof.
  split; [reflexivity|]. split; [vm_compute; reflexivity|].
  do 6 eexists. split; [vm_compute; reflexivity | reflexivity].
Qed.

(** C6, as the code has it: [getSlots] never reads [advanceBookingDays] (nor
    the clock), so two stores whose schedules for the provider differ only in
    the horizon give the same answer for every date. *)
Theorem getSlots_ignores_horizon (w1 w2 : World) (user : User) (providerId : string)
    (rd : option Z) (a1 a2 : Availability) :
  users w1 = users w2 ->
  findAvailability w1 providerId = Some a1 ->
  findAvailability w2 providerId = Some a2 ->
  schedules a1 = schedules a2 -> exceptions a1 = exceptions a2 -> timezone a1 = timezone a2 ->
  Slots.getSlots w1 user providerId rd = Slots.getSlots w2 user providerId rd.
Proof.
  intros Hu H1 H2 Hs He Ht. unfold Slots.getSlots, findUser, Slots.respond.
  rewrite Hu, H1, H2, Hs, He, Ht. reflexivity.
Qed.

Lemma getSlots_ignores_horizon_witness :
  Slots.getSlots (Fixtures.world 60) Fixtures.customer "p1" (Some Fixtures.dec6_2027) =
  Slots.getSlots
    (mkWorld [Fixtures.provider; Fixtures.customer] [mkService "s1" "p1"]
       [mkAvailability "p1" [Fixtures.monday 60 []] [] "Asia/Bahrain" 365] [])
    Fixtures.customer "p1" (Some Fixtures.dec6_2027).
Proof.
  apply (getSlots_ignores_horizon _ _ _ _ _ (Fixtures.avail 60)
           (mkAvailability "p1" [Fixtures.monday 60 []] [] "Asia/Bahrain" 365));
    reflexivity.
Defined.

(* ------------------------------------------------------------------ *)
(** ** Validation of weekly rules *)





(* ------------------------------------------------------------------ *)
(** ** Booking conflicts *)



(** With [strictQuery: true] (Mongoose 6) the [timeSlot] condition is
    dropped instead, and the second request is refused with 409. *)
Lemma createBooking_strictQuery_conflict :
  let (w1, _) := Booking.createBooking true (Fixtures.world 60) Fixtures.customer Fixtures.now
                   (Fixtures.req "10:00 AM") in
  snd (Booking.createBooking true w1 Fixtures.customer Fixtures.now (Fixtures.req "11:00 AM")) =
  Booking.BStatus 409.
Proof. vm_compute. reflexivity. Qed.

(** C2, as the code has it: the conflict query and the insert are separate
    steps and no unique index backs them, so when two requests (from the
    same or different users, for the same slot or not) both run their checks
    before either inserts, both are accepted and both bookings are stored,
    whatever [strictQuery] is. *)
Theorem concurrent_requests_both_succeed (sq : bool) (w : World)
    (u1 : User) (n1 : Z) (r1 : Booking.BookingReq) (o1 : Doc)
    (u2 : User) (n2 : Z) (r2 : Booking.BookingReq) (o2 : Doc) :
  Booking.check sq w u1 n1 r1 = Booking.Proceed o1 ->
  Booking.check sq w u2 n2 r2 = Booking.Proceed o2 ->
  Booking.run sq [true; false; true; false] w u1 n1 r1 Booking.Start u2 n2 r2 Booking.Start =
  (mkWorld (users w) (services w) (availabilities w)
     (bookings w ++ [Mongo.cast_doc o1] ++ [Mongo.cast_doc o2]),
   Booking.Done (Booking.Created (Mongo.cast_doc o1)),
   Booking.Done (Booking.Created (Mongo.cast_doc o2))).
Proof.
  intros H1 H2. simpl. rewrite H1. simpl. rewrite H2. simpl.
  rewrite <- app_assoc. reflexivity.
Qed.

(** Customers [c1] and [c2] ask for the 10:00 AM slot of [p1] on 2 November
    2026 at the same time. *)
Lemma concurrent_requests_both_succeed_witness :
  Booking.run false [true; false; true; false] (Fixtures.world 60)
    Fixtures.customer Fixtures.now (Fixtures.req "10:00 AM") Booking.Start
    OpsFixtures.other Fixtures.now OpsFixtures.req_c2 Booking.Start =
  (mkWorld (users (Fixtures.world 60)) (services (Fixtures.world 60))
     (availabilities (Fixtures.world 60))
     (bookings (Fixtures.world 60) ++ [Mongo.cast_doc Dup.obj]
        ++ [Mongo.cast_doc Dup.obj_c2]),
   Booking.Done (Booking.Created (Mongo.cast_doc Dup.obj)),
   Booking.Done (Booking.Created (Mongo.cast_doc Dup.obj_c2))).
Proof.
  apply (concurrent_requests_both_succeed false (Fixtures.world 60)
           Fixtures.customer Fixtures.now (Fixtures.req "10:00 AM") Dup.obj
           OpsFixtures.other Fixtures.now OpsFixtures.req_c2 Dup.obj_c2);
    vm_compute; reflexivity.
Defined.

(** C2, as stated, fails: with the check-check-insert-insert interleaving
    neither request gets a conflict; both get 201. *)
Lemma concurrent_requests_no_conflict :
  match Booking.run false [true; false; true; false] (Fixtures.world 60)
          Fixtures.customer Fixtures.now (Fixtures.req "10:00 AM") Booking.Start
          Fixtures.customer Fixtures.now (Fixtures.req "10:00 AM") Booking.Start with
  | (w, Booking.Done (Booking.Created _), Booking.Done (Booking.Created _)) =>
      length (filter Dup.active_on_nov2 (bookings w)) = 2%nat
  | _ => False
  end.
Proof. vm_compute. reflexivity. Qed.

(* ------------------------------------------------------------------ *)
(** ** The time format, both ways *)

Module FormatFacts.
Import RoundTrip.

Lemma hm_mod_day (t : Z) :
  getHours (t mod 1440) = getHours t /\ getMinutes (t mod 1440) = getMinutes t.
Proof.
  unfold getHours, getMinutes. change 1440 with (60 * 24).
  rewrite Z.rem_mul_r by lia. rewrite (Z.mul_comm 60 ((t / 60) mod 24)). split.
  - rewrite Z.div_add by lia. rewrite (Z.div_small (t mod 60) 60) by (apply Z.mod_pos_bound; lia).
    rewrite Z.add_0_l, Z.mod_mod by lia. reflexivity.
  - rewrite Z.mod_add, Z.mod_mod by lia. reflexivity.
Qed.

Lemma formatTimeString_mod_day (t : Z) : formatTimeString (t mod 1440) = formatTimeString t.
Proof.
  unfold formatTimeString. destruct (hm_mod_day t) as [-> ->]. reflexivity.
Qed.

Lemma fmt_ok_day : forallb fmt_ok (map Z.of_nat (seq 0 1440)) = true.
Proof. vm_compute. reflexivity. Qed.

Lemma fmt_ok_all (t : Z) : fmt_ok t = true.
Proof.
  assert (H : fmt_ok (t mod 1440) = true).
  { eapply forallb_forall; [exact fmt_ok_day|].
    rewrite <- (Z2Nat.id (t mod 1440)) by (apply Z.mod_pos_bound; lia).
    apply in_map, in_seq. pose proof (Z.mod_pos_bound t 1440). lia. }
  unfold fmt_ok in *. rewrite formatTimeString_mod_day in H.
  destruct (hm_mod_day t) as [E1 E2]. rewrite E1, E2 in H. exact H.
Qed.

End FormatFacts.

(** X1: reading back a formatted time gives its hour and minute:
    [parseTimeString (formatTimeString t)] is [(getHours t, getMinutes t)]
    for every time [t]. *)
Theorem parseTimeString_formatTimeString (t : Z) :
  parseTimeString (formatTimeString t) = Some (getHours t, getMinutes t).
Proof.
  pose proof (FormatFacts.fmt_ok_all t) as H. unfold RoundTrip.fmt_ok in H.
  destruct (parseTimeString (formatTimeString t)) as [[h m]|]; [|discriminate].
  apply andb_prop in H as [H _]. apply andb_prop in H as [H _].
  apply andb_prop in H as [Hh Hm]. apply Z.eqb_eq in Hh, Hm. subst. reflexivity.
Qed.

(** X2: every slot label [formatTimeString] produces matches the 12-hour
    grammar that [POST /bookings] requires of [timeSlot], and is already in
    normal form. *)
Theorem formatTimeString_valid12 (t : Z) :
  valid12 (formatTimeString t) = true /\ normalize (formatTimeString t) = formatTimeString t.
Proof.
  pose proof (FormatFacts.fmt_ok_all t) as H. unfold RoundTrip.fmt_ok in H.
  apply andb_prop in H as [H Hn]. apply andb_prop in H as [_ Hv].
  split; [exact Hv | apply String.eqb_eq; exact Hn].
Qed.

(** X3: a string of the 12-hour grammar always parses, to an hour in
    [0, 23] and a minute in [0, 59]. *)
Theorem parseTimeString_valid12_bounds (s : string) :
  valid12 s = true ->
  exists h m, parseTimeString s = Some (h, m) /\ 0 <= h < 24 /\ 0 <= m < 60.
Proof.
  intro H. rewrite RoundTripFacts.parseTimeString_eq.
  unfold valid12, match_time in *.
  destruct (split_colon s) as [[hs rest]|]; [|discriminate].
  destruct rest as [|m1 [|m2 r]]; try discriminate.
  apply andb_prop in H as [H Ht]; apply andb_prop in H as [H Hd];
    apply andb_prop in H as [Hh Hm].
  pose proof (RoundTripFacts.minutes_roundtrip m1 m2 Hm Hd) as [Mr _].
  rewrite (in_range_digit m1 Hm), Hd.
  destruct r as [|a [|m [|x [|y r']]]]; try discriminate.
  - pose proof (RoundTripFacts.period_cases a m Ht) as HP.
    destruct (RoundTripFacts.hour_roundtrip hs _ Hh HP) as (Hr & _ & _ & Hlen).
    rewrite Hlen. cbn [andb]. simpl in Ht. rewrite Ht. eauto.
  - simpl in Ht. apply andb_prop in Ht as [Hw Ht].
    pose proof (RoundTripFacts.period_cases m x Ht) as HP.
    destruct (RoundTripFacts.hour_roundtrip hs _ Hh HP) as (Hr & _ & _ & Hlen).
    rewrite Hlen. cbn [andb]. rewrite Hw, Ht. cbn [andb]. eauto.
Qed.

Lemma parseTimeString_valid12_bounds_witness :
  valid12 "12:59 am" = true /\
  exists h m, parseTimeString "12:59 am" = Some (h, m) /\ 0 <= h < 24 /\ 0 <= m < 60.
Proof.
  split; [reflexivity|]. apply parseTimeString_valid12_bounds. reflexivity.
Defined.

(* ------------------------------------------------------------------ *)
(** ** Termination, empty windows and breaks *)

Module LoopFacts.

Lemma gen_loop_total fuel endT dur buf brks :
  0 < dur + buf ->
  forall cur, 0 < Z.of_nat fuel -> endT - cur < Z.of_nat fuel ->
  Gen.gen_loop fuel endT dur buf brks cur <> Gen.Hangs.
Proof.
  intro Hs. induction fuel as [|f IH]; intros cur H0 H1; [simpl in H0; lia|].
  simpl. destruct (cur <? endT) eqn:Hlt; [|discriminate].
  apply Z.ltb_lt in Hlt.
  destruct (Gen.some_opt _ brks) as [isb|]; [|discriminate].
  destruct (Gen.gen_loop f endT dur buf brks (cur + dur + buf)) eqn:Hr.
  - destruct (_ && _); discriminate.
  - discriminate.
  - exfalso. apply (IH (cur + dur + buf)); [lia | lia | exact Hr].
Qed.

Lemma internal_loop_total fuel endT dur buf brks :
  0 < dur + buf ->
  forall cur, 0 < Z.of_nat fuel -> endT - cur < Z.of_nat fuel ->
  Internal.loop fuel endT dur buf brks cur <> Gen.Hangs.
Proof.
  intro Hs. induction fuel as [|f IH]; intros cur H0 H1; [simpl in H0; lia|].
  simpl. destruct (cur <? endT) eqn:Hlt; [|discriminate].
  apply Z.ltb_lt in Hlt.
  destruct (Gen.some_opt _ brks) as [isb|]; [|discriminate].
  destruct (Internal.loop f endT dur buf brks (cur + (dur + buf))) eqn:Hr.
  - destruct (negb isb); discriminate.
  - discriminate.
  - exfalso. apply (IH (cur + (dur + buf))); [lia | lia | exact Hr].
Qed.

Lemma loop_fuel_enough (st en : Z) :
  0 < Z.of_nat (Gen.loop_fuel st en) /\ en - st < Z.of_nat (Gen.loop_fuel st en).
Proof.
  unfold Gen.loop_fuel. rewrite Nat2Z.inj_succ.
  destruct (Z.le_gt_cases 0 (en - st)).
  - rewrite Z2Nat.id by assumption. lia.
  - destruct (en - st) eqn:E; simpl; lia.
Qed.

Lemma gen_loop_drop_breaks fuel endT dur buf brks :
  forall cur l, Gen.gen_loop fuel endT dur buf brks cur = Gen.Ok l ->
  exists l0, Gen.gen_loop fuel endT dur buf [] cur = Gen.Ok l0 /\ subseq l l0.
Proof.
  induction fuel as [|f IH]; intros cur l H; simpl in H |- *; [discriminate|].
  destruct (cur <? endT); [|injection H as <-; exists []; split; [reflexivity | constructor]].
  destruct (Gen.some_opt _ brks) as [isb|]; [|discriminate].
  destruct (Gen.gen_loop f endT dur buf brks (cur + dur + buf)) as [rest| |] eqn:Hr;
    try discriminate.
  destruct (IH _ _ Hr) as (l0 & E & Hsub). rewrite E. cbn [negb andb].
  destruct isb; cbn [negb andb] in H.
  - injection H as <-. destruct (cur + dur <=? endT); eexists; split; try reflexivity.
    + apply subseq_skip. exact Hsub.
    + exact Hsub.
  - destruct (cur + dur <=? endT); injection H as <-; eexists; split; try reflexivity.
    + apply subseq_keep. exact Hsub.
    + exact Hsub.
Qed.

Lemma gen_in_internal fuel endT dur buf :
  forall cur l, Gen.gen_loop fuel endT dur buf [] cur = Gen.Ok l ->
  exists l', Internal.loop fuel endT dur buf [] cur = Gen.Ok l' /\ incl l l'.
Proof.
  induction fuel as [|f IH]; intros cur l H; simpl in H |- *; [discriminate|].
  destruct (cur <? endT); [|injection H as <-; exists []; split; [reflexivity | apply incl_refl]].
  rewrite Z.add_assoc.
  destruct (Gen.gen_loop f endT dur buf [] (cur + dur + buf)) as [rest| |] eqn:Hr;
    try discriminate.
  destruct (IH _ _ Hr) as (l' & E & Hi). rewrite E. cbn [negb].
  eexists. split; [reflexivity|].
  destruct (cur + dur <=? endT); cbn [andb negb] in H; injection H as <-.
  - apply incl_cons; [left; reflexivity|]. apply incl_tl. exact Hi.
  - apply incl_tl. exact Hi.
Qed.

End LoopFacts.

(** X4: [generateTimeSlots] always returns or throws when a slot plus its
    buffer is longer than zero minutes: its [while] loop terminates. *)
Theorem generateTimeSlots_terminates (startTime endTime : string) (dur buf : Z)
    (brks : list BreakTime) :
  0 < dur + buf -> Gen.generateTimeSlots startTime endTime dur buf brks <> Gen.Hangs.
Proof.
  intro Hs. unfold Gen.generateTimeSlots.
  destruct (parseTimeString startTime) as [st|], (parseTimeString endTime) as [en|];
    try discriminate.
  destruct (LoopFacts.loop_fuel_enough (at_time st) (at_time en)) as [H0 H1].
  apply LoopFacts.gen_loop_total; assumption.
Qed.

Lemma generateTimeSlots_terminates_witness :
  0 < 0 + 15 /\ Gen.generateTimeSlots "9:00 AM" "5:00 PM" 0 15 [] <> Gen.Hangs.
Proof. split; [lia|]. apply generateTimeSlots_terminates. lia. Defined.

(** X5: a window whose end is not after its start (e.g. a reversed rule
    05:00 PM to 09:00 AM) gives no slots and no error. *)
Theorem generateTimeSlots_empty_window (startTime endTime : string) (dur buf : Z)
    (brks : list BreakTime) (st en : Z * Z) :
  parseTimeString startTime = Some st -> parseTimeString endTime = Some en ->
  at_time en <= at_time st ->
  Gen.generateTimeSlots startTime endTime dur buf brks = Gen.Ok [].
Proof.
  intros Hs He Hle. unfold Gen.generateTimeSlots. rewrite Hs, He.
  unfold Gen.loop_fuel. simpl.
  destruct (at_time st <? at_time en) eqn:Hlt; [apply Z.ltb_lt in Hlt; lia | reflexivity].
Qed.

Lemma generateTimeSlots_empty_window_witness :
  Gen.generateTimeSlots "05:00 PM" "09:00 AM" 60 0 [] = Gen.Ok [].
Proof.
  apply (generateTimeSlots_empty_window _ _ _ _ _ (17, 0) (9, 0));
    [reflexivity | reflexivity | vm_compute; discriminate].
Defined.

(** X6: breaks only remove slots: when [generateTimeSlots] succeeds with
    breaks, the same window without breaks also succeeds, and the slots
    with breaks are those without, some left out, in the same order. *)
Theorem generateTimeSlots_breaks_only_remove (startTime endTime : string) (dur buf : Z)
    (brks : list BreakTime) (slots : list Slot) :
  Gen.generateTimeSlots startTime endTime dur buf brks = Gen.Ok slots ->
  exists all, Gen.generateTimeSlots startTime endTime dur buf [] = Gen.Ok all /\ subseq slots all.
Proof.
  unfold Gen.generateTimeSlots.
  destruct (parseTimeString startTime) as [st|], (parseTimeString endTime) as [en|];
    try discriminate.
  apply LoopFacts.gen_loop_drop_breaks.
Qed.

Lemma generateTimeSlots_breaks_only_remove_witness :
  exists all, Gen.generateTimeSlots "9:00 AM" "2:00 PM" 60 0 [] = Gen.Ok all /\
    subseq [mkSlot "9:00 AM" "10:00 AM" true; mkSlot "10:00 AM" "11:00 AM" true;
            mkSlot "1:00 PM" "2:00 PM" true] all.
Proof.
  apply (generateTimeSlots_breaks_only_remove _ _ _ _ [mkBreak "11:00 AM" "1:00 PM"]).
  vm_compute. reflexivity.
Defined.

(* ------------------------------------------------------------------ *)
(** ** The slots endpoint against the booking handler *)

(** X7: when the provider's rules have no breaks, every slot the slots
    endpoint offers for a date is also in the list the booking handler
    re-derives for that date, so its "slot not available" check passes. *)
Theorem getSlots_offered_slots_rederived (w : World) (user : User) (providerId : string)
    (rd : Z) (av : Availability) (slots : list Slot) st en dur buf tz :
  findAvailability w providerId = Some av ->
  Forall (fun s => breakTimes s = []) (schedules av) ->
  Slots.getSlots w user providerId (Some rd) = Slots.Slots slots st en dur buf tz ->
  exists slots', Internal.getAvailableSlotsInternal w providerId rd = Gen.Ok slots' /\
                 incl slots slots'.
Proof.
  intros Ha Hb H. unfold Slots.getSlots in H.
  destruct (findUser w providerId); [|discriminate].
  destruct (negb _ && _ && _); [discriminate|].
  rewrite Ha in H.
  unfold Internal.getAvailableSlotsInternal. rewrite Ha.
  destruct (find (fun s => (dayOfWeek s =? getDay rd) && isEnabled s) (schedules av))
    as [sch|] eqn:Hs; [|discriminate].
  assert (Hsb : breakTimes sch = []).
  { apply find_some in Hs as [Hin _]. rewrite Forall_forall in Hb. exact (Hb _ Hin). }
  destruct (find (fun e => iso_day (ex_date e) =? iso_day rd) (exceptions av)) as [e|] eqn:He.
  - destruct (isAvailable e) eqn:Hav; cbn [negb] in H; [|discriminate].
    unfold Slots.respond, Gen.generateTimeSlots in H. cbn [Internal.option_bind negb].
    rewrite Hsb in H.
    destruct (parseTimeString (Internal.or_str (customStartTime e) (startTime sch))),
             (parseTimeString (Internal.or_str (customEndTime e) (endTime sch)));
      try discriminate.
    destruct (Gen.gen_loop _ _ _ _ _ _) eqn:Hg; try discriminate.
    injection H as <- _ _ _ _ _.
    destruct (LoopFacts.gen_in_internal _ _ _ _ _ _ Hg) as (l' & E & Hi).
    rewrite Hsb, E. eauto.
  - unfold Slots.respond, Gen.generateTimeSlots in H. cbn [Internal.option_bind Internal.or_str].
    rewrite Hsb in H.
    destruct (parseTimeString (startTime sch)), (parseTimeString (endTime sch)); try discriminate.
    destruct (Gen.gen_loop _ _ _ _ _ _) eqn:Hg; try discriminate.
    injection H as <- _ _ _ _ _.
    destruct (LoopFacts.gen_in_internal _ _ _ _ _ _ Hg) as (l' & E & Hi).
    rewrite Hsb, E. eauto.
Qed.

Lemma getSlots_offered_slots_rederived_witness :
  exists slots', Internal.getAvailableSlotsInternal (Fixtures.world 90) "p1" Fixtures.nov2 =
                   Gen.Ok slots' /\
    incl [mkSlot "9:00 AM" "10:30 AM" true; mkSlot "10:30 AM" "12:00 PM" true;
          mkSlot "12:00 PM" "1:30 PM" true; mkSlot "1:30 PM" "3:00 PM" true;
          mkSlot "3:00 PM" "4:30 PM" true] slots'.
Proof.
  apply (getSlots_offered_slots_rederived _ Fixtures.customer _ _ (Fixtures.avail 90) _
           "09:00 AM" "05:00 PM" 90 0 "Asia/Bahrain");
    [reflexivity | repeat constructor | vm_compute; reflexivity].
Defined.
Module CheckFacts.

Ltac split_match H :=
  match type of H with
  | context [match ?x with _ => _ end] => destruct x eqn:?
  end.

Lemma check_proceed (sq : bool) (w : World) (user : User) (now : Z)
    (req : Booking.BookingReq) (obj : Doc) :
  Booking.check sq w user now req = Booking.Proceed obj ->
  exists serviceId customerId providerId ms timeSlot service slots,
    Booking.rq_serviceId req = Some serviceId /\ Booking.rq_customerId req = Some customerId /\
    Booking.rq_providerId req = Some providerId /\
    Booking.rq_date req = Some (Booking.Valid ms) /\ Booking.rq_timeSlot req = Some timeSlot /\
    (u_id user = customerId \/ role user = "admin"%string) /\
    find (fun sv => String.eqb (sv_id sv) serviceId) (services w) = Some service /\
    sv_provider service = providerId /\ now < ms /\ valid12 timeSlot = true /\
    Internal.getAvailableSlotsInternal w providerId ms = Gen.Ok slots /\
    existsb (fun sl => String.eqb (sl_startTime sl) timeSlot && available sl) slots = true /\
    obj = [("serviceId"%string, VStr serviceId); ("customerId"%string, VStr customerId);
           ("providerId"%string, VStr providerId); ("date"%string, VDate ms);
           ("timeSlot"%string, VStr timeSlot); ("status"%string, VStr "pending")].
Proof.
  intro H. unfold Booking.check in H.
  destruct req as [s c p d t]; cbn [Booking.rq_serviceId Booking.rq_customerId
    Booking.rq_providerId Booking.rq_date Booking.rq_timeSlot] in *.
  destruct s as [s|], c as [c|], p as [p|], d as [d|], t as [t|];
    try (destruct (negb _ && _); discriminate).
  destruct (negb (String.eqb (u_id user) c) && negb (String.eqb (role user) "admin")) eqn:Hu;
    [discriminate|].
  repeat (split_match H; try discriminate).
  injection H as <-. subst d.
  exists s, c, p, ms, t, s0, a0.
  repeat split; try reflexivity; try assumption.
  - destruct (String.eqb (u_id user) c) eqn:E1; [left; apply String.eqb_eq; exact E1|].
    destruct (String.eqb (role user) "admin") eqn:E2; [right; apply String.eqb_eq; exact E2|].
    discriminate.
  - apply String.eqb_eq. destruct (String.eqb (sv_provider s0) p); [reflexivity | discriminate].
  - apply Z.leb_gt. exact Heqb0.
  - destruct (valid12 t); [reflexivity | discriminate].
  - destruct (existsb _ a0); [reflexivity | discriminate].
Qed.

Lemma check_stop_not_created (sq : bool) (w : World) (user : User) (now : Z)
    (req : Booking.BookingReq) (d : Doc) :
  Booking.check sq w user now req <> Booking.Stop (Booking.Created d).
Proof.
  intro H. unfold Booking.check in H.
  repeat (split_match H; try discriminate).
Qed.

Lemma createBooking_created (sq : bool) (w w' : World) (user : User) (now : Z)
    (req : Booking.BookingReq) (d : Doc) :
  Booking.createBooking sq w user now req = (w', Booking.Created d) ->
  exists obj, Booking.check sq w user now req = Booking.Proceed obj /\
    w' = mkWorld (users w) (services w) (availabilities w) (bookings w ++ [Mongo.cast_doc obj]) /\
    d = Mongo.cast_doc obj.
Proof.
  unfold Booking.createBooking. destruct (Booking.check sq w user now req) as [r|obj] eqn:Hc.
  - intro H. injection H as _ ->. exfalso. exact (check_stop_not_created _ _ _ _ _ _ Hc).
  - unfold Booking.insert. intro H. injection H as <- <-. eauto.
Qed.

End CheckFacts.



(** X9: a date whose exception is marked unavailable can be neither listed
    nor booked: the slots endpoint never answers with slots for it, the
    booking handler's re-derivation gives no slot, and no booking request
    for that provider and date is created. *)
Theorem blocked_date_not_offered_nor_booked (w : World) (providerId : string) (rd : Z)
    (av : Availability) (e : DateException) :
  findAvailability w providerId = Some av ->
  find (fun e => iso_day (ex_date e) =? iso_day rd) (exceptions av) = Some e ->
  isAvailable e = false ->
  (forall user slots st en dur buf tz,
     Slots.getSlots w user providerId (Some rd) <> Slots.Slots slots st en dur buf tz) /\
  Internal.getAvailableSlotsInternal w providerId rd = Gen.Ok [] /\
  (forall sq user now req d,
     Booking.rq_providerId req = Some providerId -> Booking.rq_date req = Some (Booking.Valid rd) ->
     snd (Booking.createBooking sq w user now req) <> Booking.Created d).
Proof.
  intros Ha He Hb.
  assert (Hi : Internal.getAvailableSlotsInternal w providerId rd = Gen.Ok []).
  { unfold Internal.getAvailableSlotsInternal. rewrite Ha.
    destruct (find _ (schedules av)); [|reflexivity]. rewrite He, Hb. reflexivity. }
  split; [|split; [exact Hi|]].
  - intros user slots st en dur buf tz H. unfold Slots.getSlots in H.
    destruct (findUser w providerId); [|discriminate].
    destruct (negb _ && _ && _); [discriminate|]. rewrite Ha in H.
    destruct (find _ (schedules av)); [|discriminate]. rewrite He, Hb in H. discriminate.
  - intros sq user now req d Hp Hd H.
    destruct (Booking.createBooking sq w user now req) as [w' r] eqn:Hc. cbn [snd] in H. subst r.
    destruct (CheckFacts.createBooking_created _ _ _ _ _ _ _ Hc) as (obj & Hck & _ & _).
    destruct (CheckFacts.check_proceed _ _ _ _ _ _ Hck)
      as (s & c & p & ms & t & sv & slots & _ & _ & Hp' & Hd' & _ & _ & _ & _ & _ & _
          & Hi' & Hex & _).
    rewrite Hp in Hp'. injection Hp' as <-. rewrite Hd in Hd'. injection Hd' as <-.
    rewrite Hi in Hi'. injection Hi' as <-. discriminate.
Qed.

Lemma blocked_date_not_offered_nor_booked_witness :
  let av := mkAvailability "p1" [Fixtures.monday 60 []]
              [mkException Fixtures.nov2 false None None (Some "Holiday"%string)] "Asia/Bahrain" 30 in
  let w := mkWorld [Fixtures.provider; Fixtures.customer] [mkService "s1" "p1"] [av] [] in
  (forall user slots st en dur buf tz,
     Slots.getSlots w user "p1" (Some Fixtures.nov2) <> Slots.Slots slots st en dur buf tz) /\
  Internal.getAvailableSlotsInternal w "p1" Fixtures.nov2 = Gen.Ok [] /\
  (forall sq user now req d,
     Booking.rq_providerId req = Some "p1"%string ->
     Booking.rq_date req = Some (Booking.Valid Fixtures.nov2) ->
     snd (Booking.createBooking sq w user now req) <> Booking.Created d).
Proof.
  intros av w.
  apply (blocked_date_not_offered_nor_booked w "p1" Fixtures.nov2 av
           (mkException Fixtures.nov2 false None None (Some "Holiday"%string)));
    vm_compute; reflexivity.
Defined.

(* ------------------------------------------------------------------ *)
(** ** The schedule store *)

Module StoreFacts.
Import ScheduleOps.

Ltac split_match H :=
  match type of H with
  | context [match ?x with _ => _ end] => destruct x eqn:?
  end.

Lemma cast_rule_bounds (r : Schedule.RuleIn) (s : Schedule) :
  Schedule.cast_rule r = Some s -> rule_in_bounds s = true.
Proof.
  unfold Schedule.cast_rule.
  destruct (Schedule.ri_dayOfWeek r), (Schedule.ri_startTime r), (Schedule.ri_endTime r);
    try discriminate.
  destruct (_ && _) eqn:Hb; [|discriminate]. intro H. injection H as <-.
  unfold rule_in_bounds. cbn [dayOfWeek slotDuration bufferTime].
  repeat (apply andb_prop in Hb as [Hb ?]).
  repeat (apply andb_true_intro; split); assumption.
Qed.

Lemma cast_rules_bounds (rs : list Schedule.RuleIn) (ss : list Schedule) :
  Schedule.cast_rules rs = Some ss -> forallb rule_in_bounds ss = true.
Proof.
  revert ss. induction rs as [|r rs IH]; intros ss H; simpl in H.
  - injection H as <-. reflexivity.
  - destruct (Schedule.cast_rule r) eqn:H1, (Schedule.cast_rules rs) eqn:H2; try discriminate.
    injection H as <-. simpl. rewrite (cast_rule_bounds _ _ H1), (IH _ eq_refl). reflexivity.
Qed.

Lemma forall_filter {A} (P : A -> Prop) (f : A -> bool) (l : list A) :
  Forall P l -> Forall P (filter f l).
Proof.
  intro H. apply Forall_forall. intros x Hx. apply filter_In in Hx as [Hx _].
  rewrite Forall_forall in H. auto.
Qed.

Lemma forall_remove_first {A} (P : A -> Prop) (f : A -> bool) (l : list A) :
  Forall P l -> Forall P (remove_first f l).
Proof.
  induction 1 as [|x l Hx Hl IH]; simpl; [constructor|].
  destruct (f x); [exact Hl | constructor; assumption].
Qed.

Lemma findAvailability_in (w : World) (p : string) (a : Availability) :
  findAvailability w p = Some a -> In a (availabilities w) /\ av_providerId a = p.
Proof.
  unfold findAvailability. intro H. apply find_some in H as [H1 H2].
  split; [exact H1 | apply String.eqb_eq; exact H2].
Qed.

(** The result of a successful POST or PATCH. *)
Lemma set_or_patch_result (w w' : World) (user : User) (p : string) (body : Schedule.SetBody)
    (a : Availability) (op : World -> User -> string -> Schedule.SetBody -> World * Schedule.SetResponse) :
  (op = Schedule.setSchedule \/ op = Schedule.patchSchedule) ->
  op w user p body = (w', Schedule.Stored a) ->
  w' = Schedule.upsert w a /\ av_providerId a = p /\
  (exists u, findUser w p = Some u) /\
  (String.eqb (role user) "admin" || String.eqb (u_id user) p = true) /\
  (forall s, In s (schedules a) ->
     rule_in_bounds s = true \/
     exists old, findAvailability w p = Some old /\ In s (schedules old)).
Proof.
  intros [-> | ->] H.
  - unfold Schedule.setSchedule in H.
    destruct (findUser w p) as [u|] eqn:Hu; [|discriminate].
    destruct (negb _ && negb _) eqn:Hg; [discriminate|].
    destruct (negb (String.eqb (role u) "provider")); [discriminate|].
    destruct (Schedule.sb_schedules body) as [[|r rs]|]; try discriminate.
    destruct (negb (forallb _ _)); [discriminate|].
    destruct (Schedule.cast_rules (r :: rs)) eqn:Hc; [|discriminate].
    destruct (_ && _ && _); [|discriminate].
    injection H as <- <-. repeat split; eauto.
    + destruct (String.eqb (role user) "admin"), (String.eqb (u_id user) p); simpl in *;
        congruence.
    + intros s Hs. left. pose proof (cast_rules_bounds _ _ Hc) as Hb.
      rewrite forallb_forall in Hb. exact (Hb _ Hs).
  - unfold Schedule.patchSchedule in H.
    destruct (findUser w p) as [u|] eqn:Hu; [|discriminate].
    destruct (negb _ && negb _) eqn:Hg; [discriminate|].
    destruct (findAvailability w p) as [old|] eqn:Ho; [|discriminate].
    assert (Hadm : String.eqb (role user) "admin" || String.eqb (u_id user) p = true).
    { destruct (String.eqb (role user) "admin"), (String.eqb (u_id user) p); simpl in *;
        congruence. }
    destruct (Schedule.sb_schedules body) as [[|r rs]|] eqn:Hsb; try discriminate.
    + destruct (Schedule.cast_rules (r :: rs)) eqn:Hc; [|discriminate].
      destruct (_ && _ && _); [|discriminate].
      injection H as <- <-. repeat split; eauto.
      intros s Hs. left. pose proof (cast_rules_bounds _ _ Hc) as Hb.
      rewrite forallb_forall in Hb. exact (Hb _ Hs).
    + destruct (_ && _ && _); [|discriminate].
      injection H as <- <-. repeat split; eauto.
Qed.

Lemma set_or_patch_status (w w' : World) (user : User) (p : string) (body : Schedule.SetBody)
    (c : Z) (op : World -> User -> string -> Schedule.SetBody -> World * Schedule.SetResponse) :
  (op = Schedule.setSchedule \/ op = Schedule.patchSchedule) ->
  op w user p body = (w', Schedule.SetStatus c) -> w' = w.
Proof.
  intros [-> | ->] H; [unfold Schedule.setSchedule in H | unfold Schedule.patchSchedule in H];
    repeat (split_match H; try (injection H as <- _; reflexivity); try discriminate).
Qed.

Lemma in_bounds_upsert (w : World) (p : string) (a : Availability) :
  Forall (fun a => av_in_bounds a = true) (availabilities w) ->
  av_providerId a = p ->
  (forall s, In s (schedules a) ->
     rule_in_bounds s = true \/ exists old, findAvailability w p = Some old /\ In s (schedules old)) ->
  Forall (fun a => av_in_bounds a = true) (availabilities (Schedule.upsert w a)).
Proof.
  intros Hw Hp Hs. simpl. constructor; [|apply forall_filter; exact Hw].
  unfold av_in_bounds. apply forallb_forall. intros s Hin.
  destruct (Hs s Hin) as [Hb | (old & Ho & Hin')]; [exact Hb|].
  apply findAvailability_in in Ho as [Ho _]. rewrite Forall_forall in Hw.
  specialize (Hw _ Ho). unfold av_in_bounds in Hw. rewrite forallb_forall in Hw. auto.
Qed.

Lemma nodup_map_filter {A B} (f : A -> B) (g : A -> bool) (l : list A) :
  NoDup (map f l) -> NoDup (map f (filter g l)).
Proof.
  induction l as [|x l IH]; simpl; intro H; [constructor|].
  inversion H as [|y m Hn Hd]; subst.
  destruct (g x); simpl; [|auto].
  constructor; [|auto]. intro Hin. apply Hn.
  apply in_map_iff in Hin as (z & Hz & Hin). apply filter_In in Hin as [Hin _].
  rewrite <- Hz. apply in_map. exact Hin.
Qed.

Lemma nodup_map_remove_first {A B} (f : A -> B) (g : A -> bool) (l : list A) :
  NoDup (map f l) -> NoDup (map f (remove_first g l)).
Proof.
  induction l as [|x l IH]; simpl; intro H; [constructor|].
  inversion H as [|y m Hn Hd]; subst.
  destruct (g x); [exact Hd|]. simpl. constructor; [|auto].
  intro Hin. apply Hn. apply in_map_iff in Hin as (z & Hz & Hin).
  rewrite <- Hz. apply in_map.
  clear -Hin. induction l as [|y l IH]; simpl in *; [contradiction|].
  destruct (g y); [right; exact Hin|]. destruct Hin as [-> | Hin]; [left; reflexivity | right; auto].
Qed.

Lemma nodup_upsert (w : World) (a : Availability) :
  NoDup (map av_providerId (availabilities w)) ->
  NoDup (map av_providerId (availabilities (Schedule.upsert w a))).
Proof.
  intro H. simpl. constructor; [|apply nodup_map_filter; exact H].
  intro Hin. apply in_map_iff in Hin as (x & Hx & Hin). apply filter_In in Hin as [_ Hf].
  rewrite Hx, String.eqb_refl in Hf. discriminate.
Qed.

Lemma find_filter_other {A} (f g : A -> bool) (l : list A) :
  (forall x, f x = true -> g x = true) -> find f (filter g l) = find f l.
Proof.
  intro H. induction l as [|x l IH]; simpl; [reflexivity|].
  destruct (g x) eqn:Hg; simpl; destruct (f x) eqn:Hf; auto.
  rewrite (H x Hf) in Hg. discriminate.
Qed.

Lemma findAvailability_upsert (w : World) (a : Availability) (q : string) :
  findAvailability (Schedule.upsert w a) q =
  if String.eqb (av_providerId a) q then Some a else findAvailability w q.
Proof.
  unfold findAvailability, Schedule.upsert. simpl.
  destruct (String.eqb (av_providerId a) q) eqn:E; [reflexivity|].
  apply find_filter_other. intros x Hx. apply String.eqb_eq in Hx. rewrite Hx.
  destruct (String.eqb q (av_providerId a)) eqn:E'; [|reflexivity].
  apply String.eqb_eq in E'. rewrite E', String.eqb_refl in E. discriminate.
Qed.

Lemma find_none_intro {A} (f : A -> bool) (l : list A) :
  (forall x, In x l -> f x = false) -> find f l = None.
Proof.
  induction l as [|x l IH]; simpl; intro H; [reflexivity|].
  rewrite (H x (or_introl eq_refl)). apply IH. auto.
Qed.

Lemma find_remove_first_nodup {A} (f : A -> string) (p : string) (l : list A) :
  NoDup (map f l) ->
  find (fun a => String.eqb (f a) p) (remove_first (fun a => String.eqb (f a) p) l) = None.
Proof.
  induction l as [|x l IH]; simpl; intro H; [reflexivity|].
  inversion H as [|y m Hn Hd]; subst.
  destruct (String.eqb (f x) p) eqn:E.
  - apply String.eqb_eq in E. subst p. apply find_none_intro. intros z Hz.
    apply String.eqb_neq. intro Ez. apply Hn. rewrite <- Ez. apply in_map. exact Hz.
  - simpl. rewrite E. apply IH. exact Hd.
Qed.

Lemma find_remove_first_other {A} (f : A -> string) (p q : string) (l : list A) :
  q <> p ->
  find (fun a => String.eqb (f a) q) (remove_first (fun a => String.eqb (f a) p) l) =
  find (fun a => String.eqb (f a) q) l.
Proof.
  intro Hqp. induction l as [|x l IH]; simpl; [reflexivity|].
  destruct (String.eqb (f x) p) eqn:E.
  - apply String.eqb_eq in E. rewrite E.
    destruct (String.eqb p q) eqn:E'; [apply String.eqb_eq in E'; congruence | reflexivity].
  - simpl. rewrite IH. reflexivity.
Qed.

Lemma rule_step_pos (w : World) (p : string) (a : Availability) (s : Schedule) :
  Forall (fun a => av_in_bounds a = true) (availabilities w) ->
  findAvailability w p = Some a -> In s (schedules a) -> 0 < slotDuration s + bufferTime s.
Proof.
  intros Hw Ha Hs. apply findAvailability_in in Ha as [Ha _].
  rewrite Forall_forall in Hw. specialize (Hw _ Ha). unfold av_in_bounds in Hw.
  rewrite forallb_forall in Hw. specialize (Hw _ Hs). unfold rule_in_bounds in Hw.
  repeat (apply andb_prop in Hw as [Hw ?]). apply Z.leb_le in Hw, H3, H1. lia.
Qed.

Lemma gen_total (st en : string) (dur buf : Z) (brks : list BreakTime) :
  0 < dur + buf -> Gen.generateTimeSlots st en dur buf brks <> Gen.Hangs.
Proof.
  intro Hs. unfold Gen.generateTimeSlots.
  destruct (parseTimeString st) as [a|], (parseTimeString en) as [b|]; try discriminate.
  destruct (LoopFacts.loop_fuel_enough (at_time a) (at_time b)) as [H0 H1].
  apply LoopFacts.gen_loop_total; assumption.
Qed.

Lemma internal_total (w : World) (p : string) (ms : Z) :
  Forall (fun a => av_in_bounds a = true) (availabilities w) ->
  Internal.getAvailableSlotsInternal w p ms <> Gen.Hangs.
Proof.
  intros Hw H. unfold Internal.getAvailableSlotsInternal in H.
  destruct (findAvailability w p) as [a|] eqn:Ha; [|discriminate].
  destruct (find _ (schedules a)) as [s|] eqn:Hs; [|discriminate].
  apply find_some in Hs as [Hs _].
  pose proof (rule_step_pos _ _ _ _ Hw Ha Hs) as Hpos.
  match type of H with
  | context [if ?b then Gen.Ok [] else _] => destruct b; [discriminate|]
  end.
  match type of H with
  | context [match parseTimeString ?x with _ => _ end] => destruct (parseTimeString x) as [st|]
  end; [|discriminate].
  match type of H with
  | context [match parseTimeString ?x with _ => _ end] => destruct (parseTimeString x) as [en|]
  end; [|discriminate].
  destruct (LoopFacts.loop_fuel_enough (at_time st) (at_time en)) as [H0 H1].
  destruct (Internal.loop _ _ _ _ _ _) eqn:Hl; try discriminate.
  exact (LoopFacts.internal_loop_total _ _ _ _ _ Hpos _ H0 H1 Hl).
Qed.

Lemma check_no_hang (sq : bool) (w : World) (user : User) (now : Z) (req : Booking.BookingReq) :
  (forall p ms, Internal.getAvailableSlotsInternal w p ms <> Gen.Hangs) ->
  Booking.check sq w user now req <> Booking.Stop Booking.BNoResponse.
Proof.
  intros Hi H. unfold Booking.check in H.
  repeat (split_match H; try discriminate).
  all: eapply Hi; eassumption.
Qed.

End StoreFacts.

(** X10: the schedule writes keep every stored rule within the schema's
    bounds (day 0 to 6, slots of 15 to 480 minutes, buffer of 0 to 120
    minutes): if the store satisfies this before a POST, PATCH or DELETE of
    a provider's schedule, it does after. *)
Theorem schedule_writes_keep_bounds (w : World) :
  Forall (fun a => ScheduleOps.av_in_bounds a = true) (availabilities w) ->
  (forall user p body, Forall (fun a => ScheduleOps.av_in_bounds a = true)
                        (availabilities (fst (Schedule.setSchedule w user p body)))) /\
  (forall user p body, Forall (fun a => ScheduleOps.av_in_bounds a = true)
                        (availabilities (fst (Schedule.patchSchedule w user p body)))) /\
  (forall user p, Forall (fun a => ScheduleOps.av_in_bounds a = true)
                   (availabilities (fst (ScheduleOps.deleteSchedule w user p)))).
Proof.
  intro Hw.
  assert (Hop : forall op, (op = Schedule.setSchedule \/ op = Schedule.patchSchedule) ->
            forall user p body, Forall (fun a => ScheduleOps.av_in_bounds a = true)
                                  (availabilities (fst (op w user p body)))).
  { intros op Hop user p body. destruct (op w user p body) as [w' [c|a]] eqn:H; cbn [fst].
    - rewrite (StoreFacts.set_or_patch_status _ _ _ _ _ _ _ Hop H). exact Hw.
    - destruct (StoreFacts.set_or_patch_result _ _ _ _ _ _ _ Hop H) as (-> & Hp & _ & _ & Hs).
      apply (StoreFacts.in_bounds_upsert _ p); assumption. }
  split; [apply Hop; left; reflexivity|]. split; [apply Hop; right; reflexivity|].
  intros user p. unfold ScheduleOps.deleteSchedule.
  destruct (findUser w p); [|exact Hw].
  destruct (_ && _); [exact Hw|].
  destruct (findAvailability w p); [|exact Hw].
  apply StoreFacts.forall_remove_first. exact Hw.
Qed.

Lemma schedule_writes_keep_bounds_witness :
  Forall (fun a => ScheduleOps.av_in_bounds a = true)
    (availabilities (fst (Schedule.setSchedule (Fixtures.world 60) Fixtures.provider "p1"
                            (BadRules.body BadRules.too_long)))).
Proof.
  apply (schedule_writes_keep_bounds (Fixtures.world 60)).
  repeat constructor.
Defined.

(** X11: on a store whose rules are within the schema's bounds, neither the
    slots endpoint nor [POST /bookings] can loop forever: each one answers. *)
Theorem endpoints_answer_on_bounded_rules (w : World) :
  Forall (fun a => ScheduleOps.av_in_bounds a = true) (availabilities w) ->
  (forall user p rd, Slots.getSlots w user p rd <> Slots.NoResponse) /\
  (forall sq user now req, snd (Booking.createBooking sq w user now req) <> Booking.BNoResponse).
Proof.
  intro Hw. split.
  - intros user p rd H. unfold Slots.getSlots in H.
    destruct (findUser w p); [|discriminate].
    destruct (_ && _ && _); [discriminate|].
    destruct rd as [rd|]; [|discriminate].
    destruct (findAvailability w p) as [a|] eqn:Ha; [|discriminate].
    destruct (find _ (schedules a)) as [s|] eqn:Hs; [|discriminate].
    apply find_some in Hs as [Hs _].
    pose proof (StoreFacts.rule_step_pos _ _ _ _ Hw Ha Hs) as Hpos.
    destruct (find _ (exceptions a)) as [e|].
    + destruct (negb (isAvailable e)); [discriminate|].
      unfold Slots.respond in H. destruct (Gen.generateTimeSlots _ _ _ _ _) eqn:Hg; try discriminate.
      exact (StoreFacts.gen_total _ _ _ _ _ Hpos Hg).
    + unfold Slots.respond in H. destruct (Gen.generateTimeSlots _ _ _ _ _) eqn:Hg; try discriminate.
      exact (StoreFacts.gen_total _ _ _ _ _ Hpos Hg).
  - intros sq user now req H. unfold Booking.createBooking in H.
    destruct (Booking.check sq w user now req) eqn:Hc.
    + cbn [snd] in H. subst r.
      refine (StoreFacts.check_no_hang _ _ _ _ _ _ Hc).
      intros p ms. apply StoreFacts.internal_total. exact Hw.
    + destruct (Booking.insert w obj). discriminate.
Qed.

Lemma endpoints_answer_on_bounded_rules_witness :
  (forall user p rd, Slots.getSlots (Fixtures.world 60) user p rd <> Slots.NoResponse) /\
  (forall sq user now req,
     snd (Booking.createBooking sq (Fixtures.world 60) user now req) <> Booking.BNoResponse).
Proof. apply endpoints_answer_on_bounded_rules. repeat constructor. Defined.

(** X12: the schedule writes keep at most one schedule document per
    provider: the POST and PATCH upsert replaces the provider's document,
    and DELETE removes one. *)
Theorem schedule_writes_one_per_provider (w : World) :
  NoDup (map av_providerId (availabilities w)) ->
  (forall user p body,
     NoDup (map av_providerId (availabilities (fst (Schedule.setSchedule w user p body))))) /\
  (forall user p body,
     NoDup (map av_providerId (availabilities (fst (Schedule.patchSchedule w user p body))))) /\
  (forall user p,
     NoDup (map av_providerId (availabilities (fst (ScheduleOps.deleteSchedule w user p))))).
Proof.
  intro Hw.
  assert (Hop : forall op, (op = Schedule.setSchedule \/ op = Schedule.patchSchedule) ->
            forall user p body, NoDup (map av_providerId (availabilities (fst (op w user p body))))).
  { intros op Hop user p body. destruct (op w user p body) as [w' [c|a]] eqn:H; cbn [fst].
    - rewrite (StoreFacts.set_or_patch_status _ _ _ _ _ _ _ Hop H). exact Hw.
    - destruct (StoreFacts.set_or_patch_result _ _ _ _ _ _ _ Hop H) as (-> & _).
      apply StoreFacts.nodup_upsert. exact Hw. }
  split; [apply Hop; left; reflexivity|]. split; [apply Hop; right; reflexivity|].
  intros user p. unfold ScheduleOps.deleteSchedule.
  destruct (findUser w p); [|exact Hw].
  destruct (_ && _); [exact Hw|].
  destruct (findAvailability w p); [|exact Hw].
  apply StoreFacts.nodup_map_remove_first. exact Hw.
Qed.

Lemma schedule_writes_one_per_provider_witness :
  NoDup (map av_providerId (availabilities (fst (Schedule.setSchedule (Fixtures.world 60)
                                                   Fixtures.provider "p1" (BadRules.body BadRules.reversed))))).
Proof.
  apply (schedule_writes_one_per_provider (Fixtures.world 60)).
  constructor; [intros [] | constructor].
Defined.

(** X13: after a POST or PATCH of a provider's schedule succeeds, GET of
    that provider's schedule by the same user returns the stored document,
    and the schedules of every other provider are unchanged. *)
Theorem setSchedule_then_getSchedule (w w' : World) (user : User) (p : string)
    (body : Schedule.SetBody) (a : Availability) :
  Schedule.setSchedule w user p body = (w', Schedule.Stored a) \/
  Schedule.patchSchedule w user p body = (w', Schedule.Stored a) ->
  ScheduleOps.getSchedule w' user p = ScheduleOps.SchFound a /\
  (forall q, q <> p -> findAvailability w' q = findAvailability w q).
Proof.
  intro H.
  assert (Hr : w' = Schedule.upsert w a /\ av_providerId a = p /\
               (exists u, findUser w p = Some u) /\
               (String.eqb (role user) "admin" || String.eqb (u_id user) p = true)).
  { destruct H as [H | H];
      [ destruct (StoreFacts.set_or_patch_result _ _ _ _ _ _ _ (or_introl eq_refl) H)
      | destruct (StoreFacts.set_or_patch_result _ _ _ _ _ _ _ (or_intror eq_refl) H) ];
      intuition. }
  destruct Hr as (-> & Hp & (u & Hu) & Hg). split.
  - unfold ScheduleOps.getSchedule. unfold findUser in *. simpl users. rewrite Hu.
    replace (negb (String.eqb (u_id user) p) && negb (String.eqb (role user) "admin")
             && negb (String.eqb (role user) "customer")) with false
      by (destruct (String.eqb (role user) "admin"), (String.eqb (u_id user) p); simpl in *;
          congruence).
    rewrite StoreFacts.findAvailability_upsert, Hp, String.eqb_refl. reflexivity.
  - intros q Hq. rewrite StoreFacts.findAvailability_upsert, Hp.
    destruct (String.eqb p q) eqn:E; [apply String.eqb_eq in E; congruence | reflexivity].
Qed.

Lemma setSchedule_then_getSchedule_witness :
  let w' := fst (Schedule.setSchedule (Fixtures.world 60) Fixtures.provider "p1" Bodies.nine_to_five) in
  ScheduleOps.getSchedule w' Fixtures.provider "p1" =
    ScheduleOps.SchFound (mkAvailability "p1" [mkSchedule 1 true "09:00 AM" "05:00 PM" 60 0 []]
                            [] "Asia/Bahrain" 30) /\
  (forall q, q <> "p1"%string -> findAvailability w' q = findAvailability (Fixtures.world 60) q).
Proof.
  intro w'. apply (setSchedule_then_getSchedule (Fixtures.world 60) w' Fixtures.provider "p1"
                     Bodies.nine_to_five).
  left. vm_compute. reflexivity.
Defined.

(** X14: once DELETE has removed a provider's schedule (with at most one
    schedule document per provider, as X12 keeps), the provider has no
    schedule: GET answers without one, the slots endpoint offers no slots,
    no booking for that provider is created, and the other providers'
    schedules are unchanged. *)
Theorem deleteSchedule_then_nothing_bookable (w w' : World) (user : User) (p : string) :
  NoDup (map av_providerId (availabilities w)) ->
  ScheduleOps.deleteSchedule w user p = (w', ScheduleOps.SchDeleted) ->
  findAvailability w' p = None /\
  (forall u a, ScheduleOps.getSchedule w' u p <> ScheduleOps.SchFound a) /\
  (forall u rd slots st en dur buf tz, Slots.getSlots w' u p rd <> Slots.Slots slots st en dur buf tz) /\
  (forall sq u now req d, Booking.rq_providerId req = Some p ->
     snd (Booking.createBooking sq w' u now req) <> Booking.Created d) /\
  (forall q, q <> p -> findAvailability w' q = findAvailability w q).
Proof.
  intros Hn H. unfold ScheduleOps.deleteSchedule in H.
  destruct (findUser w p) as [pu|]; [|discriminate].
  destruct (_ && _); [discriminate|].
  destruct (findAvailability w p) as [old|]; [|discriminate].
  injection H as <-.
  assert (Hnone : findAvailability
            (mkWorld (users w) (services w)
               (remove_first (fun a => String.eqb (av_providerId a) p) (availabilities w))
               (bookings w)) p = None).
  { unfold findAvailability. simpl. apply StoreFacts.find_remove_first_nodup. exact Hn. }
  split; [exact Hnone|]. split; [|split; [|split]].
  - intros u a Hg. unfold ScheduleOps.getSchedule in Hg. rewrite Hnone in Hg.
    destruct (findUser _ p); [|discriminate]. destruct (_ && _ && _); discriminate.
  - intros u rd slots st en dur buf tz Hg. unfold Slots.getSlots in Hg. rewrite Hnone in Hg.
    destruct (findUser _ p); [|discriminate]. destruct (_ && _ && _); [discriminate|].
    destruct rd; discriminate.
  - intros sq u now req d Hp Hc.
    destruct (Booking.createBooking sq _ u now req) as [w2 r] eqn:Hb. cbn [snd] in Hc. subst r.
    destruct (CheckFacts.createBooking_created _ _ _ _ _ _ _ Hb) as (obj & Hck & _ & _).
    destruct (CheckFacts.check_proceed _ _ _ _ _ _ Hck)
      as (s & c & p' & ms & t & sv & slots & _ & _ & Hp' & _ & _ & _ & _ & _ & _ & _
          & Hi & Hex & _).
    rewrite Hp in Hp'. injection Hp' as <-.
    unfold Internal.getAvailableSlotsInternal in Hi. rewrite Hnone in Hi.
    injection Hi as <-. discriminate.
  - intros q Hq. unfold findAvailability. simpl.
    apply StoreFacts.find_remove_first_other. exact Hq.
Qed.

Lemma deleteSchedule_then_nothing_bookable_witness :
  let w' := fst (ScheduleOps.deleteSchedule (Fixtures.world 60) Fixtures.provider "p1") in
  findAvailability w' "p1" = None /\
  (forall u a, ScheduleOps.getSchedule w' u "p1" <> ScheduleOps.SchFound a) /\
  (forall u rd slots st en dur buf tz,
     Slots.getSlots w' u "p1" rd <> Slots.Slots slots st en dur buf tz) /\
  (forall sq u now req d, Booking.rq_providerId req = Some "p1"%string ->
     snd (Booking.createBooking sq w' u now req) <> Booking.Created d) /\
  (forall q, q <> "p1"%string -> findAvailability w' q = findAvailability (Fixtures.world 60) q).
Proof.
  intro w'. apply (deleteSchedule_then_nothing_bookable (Fixtures.world 60) w' Fixtures.provider "p1").
  - constructor; [intros [] | constructor].
  - vm_compute. reflexivity.
Defined.

(* ------------------------------------------------------------------ *)
(** ** Listing, reading, updating and deleting bookings *)

Module OpsFacts.
Import BookingOps.

Lemma val_eqb_str (x : Val) (s : string) : val_eqb x (VStr s) = true <-> x = VStr s.
Proof.
  destruct x as [v|m]; simpl; split; intro H; try discriminate.
  - apply String.eqb_eq in H. subst. reflexivity.
  - injection H as ->. apply String.eqb_refl.
Qed.

Lemma find_all_one (k s : string) (docs : list Doc) (d : Doc) :
  In d (find_all [Mongo.CEq k (VStr s)] docs) <-> In d docs /\ get k d = Some (VStr s).
Proof.
  unfold find_all. rewrite filter_In. simpl. rewrite andb_true_r.
  destruct (get k d) as [x|]; [rewrite val_eqb_str|]; intuition congruence.
Qed.

Lemma find_all_nil (docs : list Doc) : find_all [] docs = docs.
Proof. unfold find_all. simpl. induction docs as [|d docs IH]; simpl; congruence. Qed.

Lemma get_set_field_same (k : string) (v : Val) (d : Doc) : get k (set_field k v d) = Some v.
Proof.
  induction d as [|[k' v'] d IH]; simpl.
  - unfold get. simpl. rewrite String.eqb_refl. reflexivity.
  - destruct (String.eqb k' k) eqn:E.
    + unfold get. simpl. rewrite String.eqb_refl. reflexivity.
    + unfold get in *. simpl. rewrite E. exact IH.
Qed.

Lemma get_set_field_other (k k' : string) (v : Val) (d : Doc) :
  k' <> k -> get k (set_field k' v d) = get k d.
Proof.
  intro Hk. induction d as [|[k0 v0] d IH]; simpl.
  - unfold get. simpl. apply String.eqb_neq in Hk. rewrite Hk. reflexivity.
  - destruct (String.eqb k0 k') eqn:E.
    + apply String.eqb_eq in E. subst k0. unfold get. simpl.
      apply String.eqb_neq in Hk. rewrite Hk. reflexivity.
    + unfold get in *. simpl. destruct (String.eqb k0 k); [reflexivity | exact IH].
Qed.

Lemma get_apply_set_other (k : string) (sets : list (string * Val)) (d : Doc) :
  Forall (fun kv => fst kv <> k) sets -> get k (apply_set sets d) = get k d.
Proof.
  unfold apply_set. revert d. induction sets as [|[k' v] sets IH]; intros d H; [reflexivity|].
  inversion H as [|x l Hx Hl]; subst. simpl. rewrite IH by exact Hl.
  apply get_set_field_other. exact Hx.
Qed.

Lemma map_replace_first (f : Doc -> bool) (k : string) (y e : Doc) (l : list Doc) :
  find f l = Some e -> get k y = get k e ->
  map (get k) (replace_first f y l) = map (get k) l.
Proof.
  intros Hf Hy. induction l as [|x l IH]; simpl in *; [reflexivity|].
  destruct (f x); [injection Hf as ->; simpl; rewrite Hy; reflexivity|].
  simpl. rewrite IH by exact Hf. reflexivity.
Qed.

Lemma in_replace_first (f : Doc -> bool) (y e : Doc) (l : list Doc) :
  find f l = Some e -> In y (replace_first f y l).
Proof.
  intro Hf. induction l as [|x l IH]; simpl in *; [discriminate|].
  destruct (f x); [left; reflexivity | right; auto].
Qed.


Lemma find_remove_first_unique (f : Doc -> bool) (l : list Doc) :
  length (filter f l) = 1%nat -> find f (remove_first f l) = None.
Proof.
  induction l as [|x l IH]; simpl; intro H; [reflexivity|].
  destruct (f x) eqn:E.
  - simpl in H. injection H as H. apply StoreFacts.find_none_intro. intros z Hz.
    destruct (f z) eqn:Ez; [|reflexivity].
    assert (In z (filter f l)) by (apply filter_In; auto).
    destruct (filter f l); [contradiction | discriminate].
  - simpl. rewrite E. auto.
Qed.

Lemma in_remove_first_other (f : Doc -> bool) (l : list Doc) (d : Doc) :
  f d = false -> (In d (remove_first f l) <-> In d l).
Proof.
  intro Hd. induction l as [|x l IH]; simpl; [tauto|].
  destruct (f x) eqn:E.
  - split; [auto|]. intros [-> | H]; [congruence | exact H].
  - simpl. rewrite IH. tauto.
Qed.

(** The keys [set_pairs] sets come from the body's top-level keys, when the
    body has no operator. *)
Lemma set_pairs_keys (updates : Body) (pairs : list (string * string)) :
  Forall (fun kv => is_operator (fst kv) = false) updates ->
  set_pairs updates = COk pairs ->
  Forall (fun kv => In (fst kv) (map fst updates)) pairs.
Proof.
  revert pairs. induction updates as [|[k v] rest IH]; intros pairs Hop H; simpl in H.
  - injection H as <-. constructor.
  - inversion Hop as [|x l Hx Hl]; subst. simpl in Hx. rewrite Hx in H.
    rewrite Forall_forall.
    destruct (Mongo.in_paths k); [destruct v as [s|fs]|];
      destruct (set_pairs rest) as [ps| |]; simpl in H; try discriminate;
      injection H as <-; specialize (IH _ Hl eq_refl); rewrite Forall_forall in IH;
      intros kv Hkv; simpl;
      first [ destruct Hkv as [<- | Hkv]; [left; reflexivity | right; apply IH; exact Hkv]
            | right; apply IH; exact Hkv ].
Qed.

Lemma cast_all_keys (cast_date : string -> option Z) (is_oid : string -> bool)
    (pairs : list (string * string)) (sets : list (string * Val)) :
  cast_all is_oid cast_date pairs = COk sets -> map fst sets = map fst pairs.
Proof.
  revert sets. induction pairs as [|[k s] pairs IH]; intros sets H; cbn [cast_all] in H.
  - injection H as <-. reflexivity.
  - destruct (cast_pair is_oid cast_date (k, s)) as [[k' v]| |] eqn:Hc;
      destruct (cast_all is_oid cast_date pairs) as [r| |]; try discriminate.
    simpl in H. injection H as <-. simpl. rewrite (IH _ eq_refl).
    unfold cast_pair in Hc.
    repeat match type of Hc with
           | context [if ?b then _ else _] => destruct b
           | context [match cast_date ?x with _ => _ end] => destruct (cast_date x)
           end; try discriminate; injection Hc as <- _; reflexivity.
Qed.



End OpsFacts.

Module OpsSteps.
Import BookingOps.

(** The outcome of an authorised [PATCH] whose body passes the status
    check and casts. *)
Lemma patch_ok (is_oid : string -> bool) (cast_date : string -> option Z) (w : World)
    (user : User) (bid : string) (body : Body) (b : Doc) (c p : string)
    (pairs : list (string * string)) (sets : list (string * Val)) :
  findById is_oid w bid = Some (Some b) ->
  id_field "customerId" b = Some c -> id_field "providerId" b = Some p ->
  (u_id user = c \/ u_id user = p \/ role user = "admin"%string) ->
  bad_status (strip body) = false -> set_pairs (strip body) = COk pairs ->
  cast_all is_oid cast_date pairs = COk sets ->
  patchBooking is_oid cast_date w user bid body =
    (with_bookings w (replace_first (has_id bid) (apply_set sets b) (bookings w)),
     OBooking (apply_set sets b)).
Proof.
  intros Hf Hc Hp Hauth Hb Hs Hca.
  assert (Ha : negb (String.eqb (u_id user) c) && negb (String.eqb (u_id user) p)
               && negb (String.eqb (role user) "admin") = false).
  { destruct Hauth as [E|[E|E]]; rewrite E, ?String.eqb_refl; simpl;
      rewrite ?andb_false_r; reflexivity. }
  unfold patchBooking. rewrite Hf, Hc, Hp. cbn [id_toString]. rewrite Ha, Hb, Hs, Hca.
  reflexivity.
Qed.

(** Any stored booking a [PATCH] leaves in place when it answers anything
    but the updated booking. *)
Lemma patch_cases (is_oid : string -> bool) (cast_date : string -> option Z) (w : World)
    (user : User) (bid : string) (body : Body) :
  fst (patchBooking is_oid cast_date w user bid body) = w \/
  exists b sets, findById is_oid w bid = Some (Some b) /\
    bad_status (strip body) = false /\
    (exists pairs, set_pairs (strip body) = COk pairs /\ cast_all is_oid cast_date pairs = COk sets) /\
    patchBooking is_oid cast_date w user bid body =
      (with_bookings w (replace_first (has_id bid) (apply_set sets b) (bookings w)),
       OBooking (apply_set sets b)).
Proof.
  unfold patchBooking.
  destruct (findById is_oid w bid) as [[b|]|] eqn:Hf; [|left; reflexivity | left; reflexivity].
  destruct (id_field "customerId" b) as [c|]; [|left; reflexivity].
  destruct (id_field "providerId" b) as [p|]; [|left; reflexivity].
  destruct (negb _ && _ && _); [left; reflexivity|].
  destruct (bad_status (strip body)) eqn:Hb; [left; reflexivity|].
  destruct (set_pairs (strip body)) as [pairs| |] eqn:Hs; [|left; reflexivity | left; reflexivity].
  destruct (cast_all is_oid cast_date pairs) as [sets| |] eqn:Hca; [|left; reflexivity | left; reflexivity].
  right. exists b, sets. repeat split; eauto.
Qed.

Lemma findById_find (is_oid : string -> bool) (w : World) (bid : string) (b : Doc) :
  findById is_oid w bid = Some (Some b) -> find (has_id bid) (bookings w) = Some b.
Proof. unfold findById. destruct (is_oid bid); intro H; [injection H as H; exact H | discriminate]. Qed.

Lemma findById_oid (is_oid : string -> bool) (w : World) (bid : string) (b : Doc) :
  findById is_oid w bid = Some (Some b) -> is_oid bid = true.
Proof. unfold findById. destruct (is_oid bid); [reflexivity | discriminate]. Qed.

End OpsSteps.

(** X15: [DELETE /bookings/:bookingId] by anyone but an admin answers 403
    and deletes nothing, also for the booking's own customer or provider:
    [req.user._id] is an ObjectId, never [!==]-equal to a string. *)
Theorem deleteBooking_non_admin_refused (is_oid : string -> bool) (w : World) (user : User)
    (bid : string) (b : Doc) :
  role user <> "admin"%string ->
  BookingOps.findById is_oid w bid = Some (Some b) ->
  BookingOps.id_field "customerId" b <> None -> BookingOps.id_field "providerId" b <> None ->
  BookingOps.deleteBooking is_oid w user bid = (w, BookingOps.OStatus 403).
Proof.
  intros Hr Hf Hc Hp. unfold BookingOps.deleteBooking. rewrite Hf.
  apply String.eqb_neq in Hr. rewrite Hr. simpl.
  destruct (BookingOps.id_field "customerId" b); [|congruence].
  destruct (BookingOps.id_field "providerId" b); [reflexivity | congruence].
Qed.

Lemma deleteBooking_non_admin_refused_witness :
  role Fixtures.customer <> "admin"%string /\
  BookingOps.findById OpsFixtures.any_oid OpsFixtures.world "b1" = Some (Some OpsFixtures.b1) /\
  BookingOps.id_field "customerId" OpsFixtures.b1 = Some (u_id Fixtures.customer) /\
  BookingOps.deleteBooking OpsFixtures.any_oid OpsFixtures.world Fixtures.customer "b1"
    = (OpsFixtures.world, BookingOps.OStatus 403).
Proof.
  refine (conj _ (conj eq_refl (conj eq_refl _))); [discriminate|].
  apply (deleteBooking_non_admin_refused _ _ _ _ OpsFixtures.b1);
    [discriminate | reflexivity | discriminate | discriminate].
Defined.

(** X16: an admin's [DELETE /bookings/:bookingId] of an existing booking
    answers with the id and removes that booking: when the id is stored
    once, it is no longer found, and every other booking stays. *)
Theorem deleteBooking_admin_removes (is_oid : string -> bool) (w : World) (user : User)
    (bid : string) (b : Doc) :
  role user = "admin"%string ->
  BookingOps.findById is_oid w bid = Some (Some b) ->
  length (filter (BookingOps.has_id bid) (bookings w)) = 1%nat ->
  snd (BookingOps.deleteBooking is_oid w user bid) = BookingOps.ODeleted bid /\
  BookingOps.findById is_oid (fst (BookingOps.deleteBooking is_oid w user bid)) bid = Some None /\
  (forall d, BookingOps.has_id bid d = false ->
     In d (bookings (fst (BookingOps.deleteBooking is_oid w user bid))) <-> In d (bookings w)).
Proof.
  intros Hr Hf Hu. pose proof (OpsSteps.findById_oid _ _ _ _ Hf) as Ho.
  unfold BookingOps.deleteBooking. rewrite Hf, Hr. simpl.
  split; [reflexivity|]. split.
  - unfold BookingOps.findById. rewrite Ho. simpl.
    rewrite OpsFacts.find_remove_first_unique by exact Hu. reflexivity.
  - intros d Hd. apply OpsFacts.in_remove_first_other. exact Hd.
Qed.

Lemma deleteBooking_admin_removes_witness :
  role OpsFixtures.admin = "admin"%string /\
  BookingOps.findById OpsFixtures.any_oid OpsFixtures.world "b1" = Some (Some OpsFixtures.b1) /\
  length (filter (BookingOps.has_id "b1") (bookings OpsFixtures.world)) = 1%nat /\
  snd (BookingOps.deleteBooking OpsFixtures.any_oid OpsFixtures.world OpsFixtures.admin "b1")
    = BookingOps.ODeleted "b1" /\
  BookingOps.findById OpsFixtures.any_oid
    (fst (BookingOps.deleteBooking OpsFixtures.any_oid OpsFixtures.world OpsFixtures.admin "b1"))
    "b1" = Some None /\
  (forall d, BookingOps.has_id "b1" d = false ->
     In d (bookings (fst (BookingOps.deleteBooking OpsFixtures.any_oid OpsFixtures.world
                            OpsFixtures.admin "b1"))) <-> In d (bookings OpsFixtures.world)).
Proof.
  refine (conj eq_refl (conj eq_refl (conj eq_refl _))).
  apply (deleteBooking_admin_removes _ _ _ _ OpsFixtures.b1); reflexivity.
Defined.

(** X17: [GET /bookings/:bookingId] returns a booking only to an admin: for
    any other user the populated ids are compared with [!==] to the
    ObjectId [req.user._id] and the answer is 403 or 500; an admin gets
    every existing booking. *)
Theorem getBooking_admin_only (is_oid : string -> bool) (doc_toString : User -> string)
    (w : World) (user : User) (bid : string) :
  (role user <> "admin"%string ->
     forall b, BookingOps.getBooking is_oid doc_toString w user bid <> BookingOps.OBooking b) /\
  (role user = "admin"%string -> forall b,
     BookingOps.findById is_oid w bid = Some (Some b) ->
     BookingOps.getBooking is_oid doc_toString w user bid = BookingOps.OBooking b).
Proof.
  split.
  - intros Hr b. apply String.eqb_neq in Hr. unfold BookingOps.getBooking.
    destruct (BookingOps.findById is_oid w bid) as [[d|]|]; try discriminate.
    rewrite Hr. simpl.
    destruct (match BookingOps.id_field "customerId" d with
              | Some x => findUser w x | None => None end); simpl; [|discriminate].
    destruct (match BookingOps.id_field "providerId" d with
              | Some x => findUser w x | None => None end); simpl; discriminate.
  - intros Hr b Hf. unfold BookingOps.getBooking. rewrite Hf, Hr. reflexivity.
Qed.

(** X18: [GET /bookings] lists every booking to an admin, to a provider the
    bookings whose [providerId] is theirs, to a customer those whose
    [customerId] is theirs. *)
Theorem listBookings_by_role (w : World) (user : User) :
  exists l, BookingOps.listBookings w user = BookingOps.OList l /\
  (role user = "admin"%string -> l = bookings w) /\
  (role user = "provider"%string -> forall d,
     In d l <-> In d (bookings w) /\ get "providerId" d = Some (VStr (u_id user))) /\
  (role user = "customer"%string -> forall d,
     In d l <-> In d (bookings w) /\ get "customerId" d = Some (VStr (u_id user))).
Proof.
  eexists. split; [reflexivity|]. unfold BookingOps.role_filter.
  split; [|split]; intro Hr; rewrite Hr; simpl;
    [apply OpsFacts.find_all_nil | intro d; apply OpsFacts.find_all_one
    | intro d; apply OpsFacts.find_all_one].
Qed.

(** X19: [GET /bookings/provider-bookings] answers 403 to a customer; to a
    provider or an admin it lists the bookings whose [providerId] is the
    caller's own id, so an admin sees only bookings made with them as
    provider. *)
Theorem providerBookings_own_only (w : World) (user : User) :
  (role user = "customer"%string -> BookingOps.providerBookings w user = BookingOps.OStatus 403) /\
  (role user = "provider"%string \/ role user = "admin"%string ->
     exists l, BookingOps.providerBookings w user = BookingOps.OList l /\
     forall d, In d l <-> In d (bookings w) /\ get "providerId" d = Some (VStr (u_id user))).
Proof.
  unfold BookingOps.providerBookings. split.
  - intro Hr. rewrite Hr. reflexivity.
  - intros Hr. replace (negb (String.eqb (role user) "provider") && negb (String.eqb (role user) "admin"))
      with false by (destruct Hr as [-> | ->]; reflexivity).
    eexists. split; [reflexivity|]. intro d. apply OpsFacts.find_all_one.
Qed.

(** X20: [PATCH] and [PUT] on a booking by a user who is neither its
    customer nor its provider nor an admin answer 403 and change nothing. *)
Theorem patchBooking_non_party_refused (is_oid : string -> bool) (cast_date : string -> option Z)
    (w : World) (user : User) (bid : string) (body : BookingOps.Body) (b : Doc) (c p : string) :
  BookingOps.findById is_oid w bid = Some (Some b) ->
  BookingOps.id_field "customerId" b = Some c -> BookingOps.id_field "providerId" b = Some p ->
  u_id user <> c -> u_id user <> p -> role user <> "admin"%string ->
  BookingOps.patchBooking is_oid cast_date w user bid body = (w, BookingOps.OStatus 403) /\
  BookingOps.putBooking is_oid cast_date w user bid body = (w, BookingOps.OStatus 403).
Proof.
  intros Hf Hc Hp Huc Hup Hr.
  assert (H : BookingOps.patchBooking is_oid cast_date w user bid body = (w, BookingOps.OStatus 403)).
  { unfold BookingOps.patchBooking. rewrite Hf, Hc, Hp. cbn [BookingOps.id_toString].
    apply String.eqb_neq in Huc, Hup, Hr. rewrite Huc, Hup, Hr. reflexivity. }
  split; [exact H | exact H].
Qed.

Lemma patchBooking_non_party_refused_witness :
  BookingOps.findById OpsFixtures.any_oid OpsFixtures.world "b1" = Some (Some OpsFixtures.b1) /\
  BookingOps.id_field "customerId" OpsFixtures.b1 = Some "c1"%string /\
  BookingOps.id_field "providerId" OpsFixtures.b1 = Some "p1"%string /\
  u_id OpsFixtures.other <> "c1"%string /\ u_id OpsFixtures.other <> "p1"%string /\
  role OpsFixtures.other <> "admin"%string /\
  BookingOps.patchBooking OpsFixtures.any_oid OpsFixtures.no_date OpsFixtures.world OpsFixtures.other
    "b1" [("status"%string, BookingOps.BStr "cancelled")] = (OpsFixtures.world, BookingOps.OStatus 403) /\
  BookingOps.putBooking OpsFixtures.any_oid OpsFixtures.no_date OpsFixtures.world OpsFixtures.other
    "b1" [("status"%string, BookingOps.BStr "cancelled")] = (OpsFixtures.world, BookingOps.OStatus 403).
Proof.
  refine (conj eq_refl (conj eq_refl (conj eq_refl (conj _ (conj _ (conj _ _))))));
    try discriminate.
  apply (patchBooking_non_party_refused _ _ _ _ _ _ OpsFixtures.b1 "c1" "p1");
    first [reflexivity | discriminate].
Defined.

(** X21: a [PATCH] or [PUT] body without [$]-operator keys never changes
    the [_id], [serviceId], [customerId] or [providerId] of any stored
    booking: those top-level keys are deleted from the body first. *)
Theorem patchBooking_keeps_party_ids (is_oid : string -> bool) (cast_date : string -> option Z)
    (w : World) (user : User) (bid : string) (body : BookingOps.Body) :
  Forall (fun kv => BookingOps.is_operator (fst kv) = false) body ->
  forall k, In k ["_id"; "serviceId"; "customerId"; "providerId"]%string ->
  map (get k) (bookings (fst (BookingOps.patchBooking is_oid cast_date w user bid body)))
    = map (get k) (bookings w).
Proof.
  intros Hop k Hk.
  destruct (OpsSteps.patch_cases is_oid cast_date w user bid body)
    as [-> | (b & sets & Hf & _ & (pairs & Hs & Hca) & ->)]; [reflexivity|].
  simpl. apply OpsFacts.map_replace_first with (e := b); [exact (OpsSteps.findById_find _ _ _ _ Hf)|].
  apply OpsFacts.get_apply_set_other.
  assert (Hsop : Forall (fun kv => BookingOps.is_operator (fst kv) = false) (BookingOps.strip body)).
  { rewrite Forall_forall in *. intros kv Hkv. unfold BookingOps.strip in Hkv.
    apply filter_In in Hkv. apply Hop. tauto. }
  pose proof (OpsFacts.set_pairs_keys _ _ Hsop Hs) as Hpk.
  pose proof (OpsFacts.cast_all_keys _ _ _ _ Hca) as Hkeys.
  rewrite Forall_forall. intros [k' v] Hin Heq. simpl in Heq. subst k'.
  assert (Hk1 : In k (map fst pairs)) by (rewrite <- Hkeys; apply (in_map fst _ (k, v)); exact Hin).
  apply in_map_iff in Hk1. destruct Hk1 as [[k1 s1] [Ek1 Hin1]]. simpl in Ek1. subst k1.
  rewrite Forall_forall in Hpk. specialize (Hpk _ Hin1). simpl in Hpk.
  apply in_map_iff in Hpk. destruct Hpk as [[k2 v2] [Ek2 Hin2]]. simpl in Ek2. subst k2.
  unfold BookingOps.strip in Hin2. apply filter_In in Hin2. destruct Hin2 as [_ Hn].
  simpl in Hn. destruct Hk as [<-|[<-|[<-|[<-|[]]]]]; discriminate.
Qed.

Lemma patchBooking_keeps_party_ids_witness :
  Forall (fun kv => BookingOps.is_operator (fst kv) = false)
    [("customerId"%string, BookingOps.BStr "c2"); ("status"%string, BookingOps.BStr "pending")] /\
  map (get "customerId") (bookings (fst (BookingOps.patchBooking OpsFixtures.any_oid OpsFixtures.no_date
      OpsFixtures.world Fixtures.customer "b1"
      [("customerId"%string, BookingOps.BStr "c2"); ("status"%string, BookingOps.BStr "pending")])))
    = map (get "customerId") (bookings OpsFixtures.world).
Proof.
  split; [repeat constructor|].
  apply patchBooking_keeps_party_ids; [repeat constructor | simpl; tauto].
Defined.

(** X22: a [$set] operator in a [PATCH] or [PUT] body is not stripped: a
    party to a booking who sends [{"$set": {k: x}}] for [k] one of
    [serviceId], [customerId], [providerId] and an ObjectId [x] gets the
    booking back with [k] set to [x], and it is stored so. *)
Theorem patchBooking_set_operator_reassigns (is_oid : string -> bool)
    (cast_date : string -> option Z) (w : World) (user : User) (bid : string) (b : Doc)
    (c p k x : string) :
  BookingOps.findById is_oid w bid = Some (Some b) ->
  BookingOps.id_field "customerId" b = Some c -> BookingOps.id_field "providerId" b = Some p ->
  (u_id user = c \/ u_id user = p \/ role user = "admin"%string) ->
  In k ["serviceId"; "customerId"; "providerId"]%string -> is_oid x = true ->
  exists b',
    BookingOps.patchBooking is_oid cast_date w user bid
      [("$set"%string, BookingOps.BObj [(k, x)])] =
      (fst (BookingOps.patchBooking is_oid cast_date w user bid
              [("$set"%string, BookingOps.BObj [(k, x)])]), BookingOps.OBooking b') /\
    get k b' = Some (VStr x) /\
    In b' (bookings (fst (BookingOps.patchBooking is_oid cast_date w user bid
                            [("$set"%string, BookingOps.BObj [(k, x)])]))).
Proof.
  intros Hf Hc Hp Hauth Hk Hx.
  assert (Hcast : BookingOps.cast_all is_oid cast_date [(k, x)] = BookingOps.COk [(k, VStr x)]).
  { destruct Hk as [<-|[<-|[<-|[]]]]; simpl; rewrite Hx; reflexivity. }
  assert (Hset : BookingOps.set_pairs (BookingOps.strip [("$set"%string, BookingOps.BObj [(k, x)])])
                 = BookingOps.COk [(k, x)]).
  { destruct Hk as [<-|[<-|[<-|[]]]]; reflexivity. }
  rewrite (OpsSteps.patch_ok _ _ _ _ _ [("$set"%string, BookingOps.BObj [(k, x)])] _ _ _ _ _
            Hf Hc Hp Hauth eq_refl Hset Hcast).
  eexists. split; [reflexivity|]. split.
  - apply OpsFacts.get_set_field_same.
  - simpl. eapply OpsFacts.in_replace_first. exact (OpsSteps.findById_find _ _ _ _ Hf).
Qed.

Lemma patchBooking_set_operator_reassigns_witness :
  exists b',
    BookingOps.patchBooking OpsFixtures.any_oid OpsFixtures.no_date OpsFixtures.world
      Fixtures.customer "b1" [("$set"%string, BookingOps.BObj [("customerId"%string, "c2"%string)])] =
      (fst (BookingOps.patchBooking OpsFixtures.any_oid OpsFixtures.no_date OpsFixtures.world
              Fixtures.customer "b1"
              [("$set"%string, BookingOps.BObj [("customerId"%string, "c2"%string)])]),
       BookingOps.OBooking b') /\
    get "customerId" b' = Some (VStr "c2") /\
    In b' (bookings (fst (BookingOps.patchBooking OpsFixtures.any_oid OpsFixtures.no_date
                            OpsFixtures.world Fixtures.customer "b1"
                            [("$set"%string, BookingOps.BObj [("customerId"%string, "c2"%string)])]))).
Proof.
  apply (patchBooking_set_operator_reassigns _ _ _ _ _ OpsFixtures.b1 "c1" "p1");
    [reflexivity | reflexivity | reflexivity | left; reflexivity | simpl; tauto | reflexivity].
Defined.



(** X24: the status of a booking has no terminal value: its customer, its
    provider or an admin can set it with [PATCH] (or [PUT]) [{status: t}]
    to any of the four values, from any current status. *)
Theorem patchBooking_any_status_transition (is_oid : string -> bool)
    (cast_date : string -> option Z) (w : World) (user : User) (bid : string) (b : Doc)
    (c p t : string) :
  BookingOps.findById is_oid w bid = Some (Some b) ->
  BookingOps.id_field "customerId" b = Some c -> BookingOps.id_field "providerId" b = Some p ->
  (u_id user = c \/ u_id user = p \/ role user = "admin"%string) ->
  In t BookingOps.valid_statuses ->
  exists b',
    snd (BookingOps.patchBooking is_oid cast_date w user bid [("status"%string, BookingOps.BStr t)])
      = BookingOps.OBooking b' /\
    get "status" b' = Some (VStr t) /\
    In b' (bookings (fst (BookingOps.patchBooking is_oid cast_date w user bid
                            [("status"%string, BookingOps.BStr t)]))).
Proof.
  intros Hf Hc Hp Hauth Ht.
  assert (Hs : BookingOps.bad_status (BookingOps.strip [("status"%string, BookingOps.BStr t)]) = false /\
               BookingOps.set_pairs (BookingOps.strip [("status"%string, BookingOps.BStr t)])
                 = BookingOps.COk [("status"%string, t)] /\
               BookingOps.cast_all is_oid cast_date [("status"%string, t)]
                 = BookingOps.COk [("status"%string, VStr t)]).
  { destruct Ht as [<-|[<-|[<-|[<-|[]]]]]; repeat split. }
  destruct Hs as (Hb & Hs & Hca).
  rewrite (OpsSteps.patch_ok _ _ _ _ _ _ _ _ _ _ _ Hf Hc Hp Hauth Hb Hs Hca).
  eexists. split; [reflexivity|]. split.
  - apply OpsFacts.get_set_field_same.
  - simpl. eapply OpsFacts.in_replace_first. exact (OpsSteps.findById_find _ _ _ _ Hf).
Qed.

Lemma patchBooking_any_status_transition_witness :
  get "status" OpsFixtures.b1 = Some (VStr "cancelled") /\
  exists b',
    snd (BookingOps.patchBooking OpsFixtures.any_oid OpsFixtures.no_date OpsFixtures.world
           Fixtures.customer "b1" [("status"%string, BookingOps.BStr "pending")])
      = BookingOps.OBooking b' /\
    get "status" b' = Some (VStr "pending") /\
    In b' (bookings (fst (BookingOps.patchBooking OpsFixtures.any_oid OpsFixtures.no_date
                            OpsFixtures.world Fixtures.customer "b1"
                            [("status"%string, BookingOps.BStr "pending")]))).
Proof.
  split; [reflexivity|].
  apply (patchBooking_any_status_transition _ _ _ _ _ OpsFixtures.b1 "c1" "p1");
    [reflexivity | reflexivity | reflexivity | left; reflexivity | simpl; tauto].
Defined.

(** X25: on an existing user id, [GET /provider/:providerId] answers 403 to
    a provider asking for another provider's schedule and returns the
    schedule to any customer; [DELETE /provider/:providerId] by anyone but
    that provider or an admin answers 403 and deletes nothing. *)
Theorem schedule_access_control (w : World) (user : User) (providerId : string) :
  findUser w providerId <> None ->
  (role user = "provider"%string -> u_id user <> providerId ->
     ScheduleOps.getSchedule w user providerId = ScheduleOps.SchStatus 403) /\
  (role user = "customer"%string -> forall a, findAvailability w providerId = Some a ->
     ScheduleOps.getSchedule w user providerId = ScheduleOps.SchFound a) /\
  (role user <> "admin"%string -> u_id user <> providerId ->
     ScheduleOps.deleteSchedule w user providerId = (w, ScheduleOps.SchStatus 403)).
Proof.
  intro Hu. destruct (findUser w providerId) as [pu|] eqn:Hf; [clear Hu | congruence].
  unfold ScheduleOps.getSchedule, ScheduleOps.deleteSchedule. rewrite Hf.
  split; [|split].
  - intros Hr Hid. apply String.eqb_neq in Hid. rewrite Hr, Hid. reflexivity.
  - intros Hr a Ha. rewrite Hr, Ha. simpl. rewrite andb_false_r. reflexivity.
  - intros Hr Hid. apply String.eqb_neq in Hid, Hr. rewrite Hr, Hid. reflexivity.
Qed.

Lemma schedule_access_control_witness :
  findUser OpsFixtures.world "p1" <> None /\
  ScheduleOps.deleteSchedule OpsFixtures.world Fixtures.customer "p1"
    = (OpsFixtures.world, ScheduleOps.SchStatus 403).
Proof.
  split; [discriminate|].
  apply (schedule_access_control OpsFixtures.world Fixtures.customer "p1");
    [discriminate | discriminate | discriminate].
Defined.
